(** * neji-finder-tutti-client: the facade client and the marketplace controller

    A shallow embedding of [neji_finder_tutti_client/main.py] and
    [neji_finder_tutti_client/market_controller.py].

    - Python objects that travel through the client (JSON-like request and
      response data) are the inductive type [value].  A [str] is a Rocq
      [string] whose characters are the code points 0..255.  A [float] is
      not a [value]: the code computes with none, and data that carries
      one is outside the model.
    - Python exceptions are values of [exn]; a fallible pure operation
      returns [result], an awaited computation an [outcome].
    - The two collaborator libraries (the Tutti.works client and the duct of
      the marketplace controller) are an abstract [Collaborators] structure:
      a world state, the entries of the event tables of the ducts and the
      answer the world gives to each request.
    - The methods are computations in the monad [M]: explicit passing of the
      world and of the controller's attributes, the events of the run
      (requests issued and completed, lines printed) as an output log. *)

From Stdlib Require Import ZArith List String Ascii Bool Lia.
From Stdlib Require Import Strings.Byte DecimalString.
Import ListNotations.

Set Warnings "-register-all".

Local Open Scope list_scope.
Local Open Scope string_scope.

(** ** Python values *)

Inductive value : Type :=
| VNone
| VBool (b : bool)
| VInt (n : Z)
| VStr (s : string)
| VBytes (b : list byte)
| VList (xs : list value)
| VTuple (xs : list value)
| VDict (kvs : list (string * value)).

(** A callable object (the [handler] of [watch_responses_for_tasks]),
    identified by its name. *)
Inductive callable : Type := Callable (name : string).

Inductive exc_class : Type :=
| Exception
| KeyError
| TypeError
| ValueError
| IndexError
| NameError
| AttributeError
| UnicodeEncodeError
| OtherError (name : string).

(** An exception object: its class and [str(e)]. *)
Record exn : Type := Exc { exc_type : exc_class; exc_msg : string }.

Inductive result (A : Type) : Type :=
| Ok (a : A)
| Err (e : exn).
Arguments Ok {A} a.
Arguments Err {A} e.

Definition rbind {A B : Type} (r : result A) (k : A -> result B) : result B :=
  match r with
  | Ok a => k a
  | Err e => Err e
  end.

(** ** Characters and text *)

Definition dquote : ascii := "034"%char.
Definition squote : ascii := "039"%char.
Definition backslash : ascii := "092"%char.
Definition q2 : string := String dquote EmptyString.
Definition q1 : string := String squote EmptyString.

(** The decimal writing of an integer.  The interpreter refuses to write
    an [int] of more than 4300 digits; the integers that the client writes
    (the clock, the IDs of decoded messages) are far below. *)
Definition string_of_Z (n : Z) : string := NilZero.string_of_int (Z.to_int n).
Definition string_of_nat (n : nat) : string := string_of_Z (Z.of_nat n).

Definition hex_digit (n : nat) : ascii :=
  if Nat.ltb n 10 then ascii_of_nat (48 + n) else ascii_of_nat (87 + n).

(** [\xNN], two lower-case hexadecimal digits. *)
Definition hex_escape (n : nat) : string :=
  String backslash (String "x" (String (hex_digit (Nat.div n 16))
    (String (hex_digit (Nat.modulo n 16)) EmptyString))).

Fixpoint str_contains (c : ascii) (s : string) : bool :=
  match s with
  | EmptyString => false
  | String a r => Ascii.eqb a c || str_contains c r
  end.

Fixpoint join (sep : string) (l : list string) : string :=
  match l with
  | [] => EmptyString
  | [x] => x
  | x :: r => x ++ sep ++ join sep r
  end.

(** The quote [repr] chooses: double quotes when the text holds a single
    quote and no double quote, single quotes otherwise. *)
Definition repr_quote (has_single has_double : bool) : ascii :=
  if has_single && negb has_double then dquote else squote.

(** [str.isprintable] on the code points 0..255. *)
Definition printable_latin1 (n : nat) : bool :=
  (Nat.leb 32 n && Nat.ltb n 127) || (Nat.leb 161 n && negb (Nat.eqb n 173)).

Definition repr_char (printable : nat -> bool) (q : ascii) (a : ascii) : string :=
  let n := nat_of_ascii a in
  if Ascii.eqb a backslash then String backslash (String backslash EmptyString)
  else if Ascii.eqb a q then String backslash (String q EmptyString)
  else if Nat.eqb n 9 then String backslash "t"
  else if Nat.eqb n 10 then String backslash "n"
  else if Nat.eqb n 13 then String backslash "r"
  else if printable n then String a EmptyString
  else hex_escape n.

Fixpoint repr_body (printable : nat -> bool) (q : ascii) (s : string) : string :=
  match s with
  | EmptyString => EmptyString
  | String a r => repr_char printable q a ++ repr_body printable q r
  end.

(** [repr(s)] of a [str]. *)
Definition repr_str (s : string) : string :=
  let q := repr_quote (str_contains squote s) (str_contains dquote s) in
  String q (repr_body printable_latin1 q s ++ String q EmptyString).

Definition string_of_bytes (b : list byte) : string :=
  string_of_list_ascii (map ascii_of_byte b).

(** [repr(b)] of a [bytes]. *)
Definition repr_bytes (b : list byte) : string :=
  let s := string_of_bytes b in
  let q := repr_quote (str_contains squote s) (str_contains dquote s) in
  String "b" (String q
    (repr_body (fun n => Nat.leb 32 n && Nat.ltb n 127) q s ++ String q EmptyString)).

(** [repr(v)]. *)
Fixpoint py_repr (v : value) : string :=
  match v with
  | VNone => "None"
  | VBool true => "True"
  | VBool false => "False"
  | VInt n => string_of_Z n
  | VStr s => repr_str s
  | VBytes b => repr_bytes b
  | VList xs => "[" ++ join ", " (map py_repr xs) ++ "]"
  | VTuple xs =>
      match xs with
      | [x] => "(" ++ py_repr x ++ ",)"
      | _ => "(" ++ join ", " (map py_repr xs) ++ ")"
      end
  | VDict kvs =>
      "{" ++ join ", "
        (map (fun kv => match kv with (k, x) => repr_str k ++ ": " ++ py_repr x end) kvs)
      ++ "}"
  end.

(** [str(v)], which is also [format(v, '')] for these types. *)
Definition py_str (v : value) : string :=
  match v with
  | VStr s => s
  | _ => py_repr v
  end.

(** [type(v).__name__]. *)
Definition type_name (v : value) : string :=
  match v with
  | VNone => "NoneType"
  | VBool _ => "bool"
  | VInt _ => "int"
  | VStr _ => "str"
  | VBytes _ => "bytes"
  | VList _ => "list"
  | VTuple _ => "tuple"
  | VDict _ => "dict"
  end.

(** ** Truth value, comparison with a [str], subscription *)

(** [bool(v)]. *)
Definition truthy (v : value) : bool :=
  match v with
  | VNone => false
  | VBool b => b
  | VInt n => negb (Z.eqb n 0)
  | VStr s => negb (String.eqb s EmptyString)
  | VBytes b => match b with [] => false | _ => true end
  | VList xs => match xs with [] => false | _ => true end
  | VTuple xs => match xs with [] => false | _ => true end
  | VDict kvs => match kvs with [] => false | _ => true end
  end.

(** [v != s] for a [str] literal [s]. *)
Definition ne_str (v : value) (s : string) : bool :=
  match v with
  | VStr t => negb (String.eqb t s)
  | _ => true
  end.

(** A [dict] keeps its items in insertion order; the first item of a key
    is its binding. *)
Fixpoint dict_get (kvs : list (string * value)) (k : string) : option value :=
  match kvs with
  | [] => None
  | (k', x) :: r => if String.eqb k' k then Some x else dict_get r k
  end.

(** [v[k]] for a [str] key [k]. *)
Definition subscript (v : value) (k : string) : result value :=
  match v with
  | VDict kvs =>
      match dict_get kvs k with
      | Some x => Ok x
      | None => Err (Exc KeyError (repr_str k))
      end
  | VStr _ => Err (Exc TypeError "string indices must be integers, not 'str'")
  | VBytes _ => Err (Exc TypeError "byte indices must be integers or slices, not str")
  | VList _ => Err (Exc TypeError "list indices must be integers or slices, not str")
  | VTuple _ => Err (Exc TypeError "tuple indices must be integers or slices, not str")
  | _ => Err (Exc TypeError (q1 ++ type_name v ++ "' object is not subscriptable"))
  end.

(** ** [int(x)] *)

(** White space for the C parser of [int]: space and the characters 9..13. *)
Definition is_c_space (a : ascii) : bool :=
  let n := nat_of_ascii a in
  Nat.eqb n 32 || (Nat.leb 9 n && Nat.leb n 13).

Definition is_digit (a : ascii) : bool :=
  let n := nat_of_ascii a in
  Nat.leb 48 n && Nat.leb n 57.

Fixpoint skip_space (cs : list ascii) : list ascii :=
  match cs with
  | [] => []
  | c :: r => if is_c_space c then skip_space r else cs
  end.

(** What the parser makes of a text: an integer, a text that is no decimal
    literal, or a literal of more digits than the interpreter converts. *)
Inductive int_literal : Type :=
| Literal (n : Z)
| Malformed
| TooLong (digits : nat).

(** The run of digits and underscores at the head of [cs], as the parser
    scans it: [None] where two underscores meet, otherwise the value of the
    digits, their number, whether the run ends in an underscore, and the
    rest of the text. *)
Fixpoint scan_digits (cs : list ascii) (acc : Z) (digits : nat) (after_underscore : bool)
    : option (Z * nat * bool * list ascii) :=
  match cs with
  | [] => Some (acc, digits, after_underscore, [])
  | c :: r =>
      if is_digit c
      then scan_digits r (10 * acc + Z.of_nat (nat_of_ascii c - 48))%Z (S digits) false
      else if Ascii.eqb c "_"
      then if after_underscore then None else scan_digits r acc digits true
      else Some (acc, digits, after_underscore, cs)
  end.

(** [sys.get_int_max_str_digits()], the default of CPython 3.11. *)
Definition int_max_str_digits : nat := 4300.

(** White space, a sign, the digits with single underscores between them,
    white space.  The number of digits is checked when the run of digits
    has been scanned, before what follows the run is looked at. *)
Definition parse_int (cs : list ascii) : int_literal :=
  let cs := skip_space cs in
  let '(negative, body) :=
    match cs with
    | c :: r =>
        if Ascii.eqb c "+" then (false, r)
        else if Ascii.eqb c "-" then (true, r)
        else (false, cs)
    | [] => (false, [])
    end in
  match body with
  | c :: _ =>
      if Ascii.eqb c "_" then Malformed
      else
        match scan_digits body 0%Z 0 false with
        | None => Malformed
        | Some (n, digits, after_underscore, rest) =>
            if after_underscore then Malformed
            else if Nat.ltb int_max_str_digits digits then TooLong digits
            else if Nat.eqb digits 0 then Malformed
            else
              match skip_space rest with
              | [] => Literal (if negative then Z.opp n else n)
              | _ :: _ => Malformed
              end
        end
  | [] => Malformed
  end.

(** Before parsing a [str], the interpreter turns the non-ASCII spaces
    (here NEL, 133, and NBSP, 160) into a space. *)
Definition unicode_space_to_ascii (a : ascii) : ascii :=
  let n := nat_of_ascii a in
  if Nat.eqb n 133 || Nat.eqb n 160 then " "%char else a.

(** The [ValueError]s of [int]; the message of the first shows at most 200
    characters of the [repr] of the argument. *)
Definition invalid_literal (repr : string) : exn :=
  Exc ValueError
    ("invalid literal for int() with base 10: " ++ String.substring 0 200 repr).

Definition exceeds_digit_limit (digits : nat) : exn :=
  Exc ValueError
    ("Exceeds the limit (" ++ string_of_nat int_max_str_digits
     ++ " digits) for integer string conversion: value has " ++ string_of_nat digits
     ++ " digits; use sys.set_int_max_str_digits() to increase the limit").

(** [int(v)], as CPython 3.11 computes it.  The type [value] has no
    [float], so the conversion of a [float] is outside this function. *)
Definition py_int (v : value) : result Z :=
  match v with
  | VInt n => Ok n
  | VBool b => Ok (if b then 1 else 0)%Z
  | VStr s =>
      match parse_int (map unicode_space_to_ascii (list_ascii_of_string s)) with
      | Literal n => Ok n
      | Malformed => Err (invalid_literal (repr_str s))
      | TooLong digits => Err (exceeds_digit_limit digits)
      end
  | VBytes b =>
      match parse_int (map ascii_of_byte b) with
      | Literal n => Ok n
      | Malformed => Err (invalid_literal (repr_bytes b))
      | TooLong digits => Err (exceeds_digit_limit digits)
      end
  | _ =>
      Err (Exc TypeError
        ("int() argument must be a string, a bytes-like object or a real number, not '"
         ++ type_name v ++ "'"))
  end.

(** ** [str.format] *)

(** [t.format( *args )] for templates made of literal text, the escapes
    [{{] and [}}], and the anonymous field [{}] (the only replacement field
    of the templates in [main.py]); any other field content is outside the
    model and reported as a [ValueError].  [idx] is the number of fields
    already filled. *)
Fixpoint str_format (t : string) (args : list value) (idx : nat) : result string :=
  match t with
  | EmptyString => Ok EmptyString
  | String c r =>
      if Ascii.eqb c "{" then
        match r with
        | EmptyString => Err (Exc ValueError "Single '{' encountered in format string")
        | String c' r' =>
            if Ascii.eqb c' "{" then
              rbind (str_format r' args idx) (fun s => Ok (String "{" s))
            else if Ascii.eqb c' "}" then
              match nth_error args idx with
              | Some a => rbind (str_format r' args (S idx)) (fun s => Ok (py_str a ++ s))
              | None =>
                  Err (Exc IndexError
                    ("Replacement index " ++ string_of_nat idx
                     ++ " out of range for positional args tuple"))
              end
            else Err (Exc ValueError "replacement field outside the modelled templates")
        end
      else if Ascii.eqb c "}" then
        match r with
        | String c' r' =>
            if Ascii.eqb c' "}"
            then rbind (str_format r' args idx) (fun s => Ok (String "}" s))
            else Err (Exc ValueError "Single '}' encountered in format string")
        | EmptyString => Err (Exc ValueError "Single '}' encountered in format string")
        end
      else rbind (str_format r args idx) (fun s => Ok (String c s))
  end.

(** ** [str.encode('ascii')] *)

Definition is_ascii (a : ascii) : bool := Nat.ltb (nat_of_ascii a) 128.

Fixpoint non_ascii_run (cs : list ascii) : nat :=
  match cs with
  | [] => 0
  | c :: r => if is_ascii c then 0 else S (non_ascii_run r)
  end.

(** Position, character and length of the first run of characters that the
    codec cannot encode. *)
Fixpoint find_non_ascii (cs : list ascii) (pos : nat) : option (nat * ascii * nat) :=
  match cs with
  | [] => None
  | c :: r =>
      if is_ascii c then find_non_ascii r (S pos)
      else Some (pos, c, S (non_ascii_run r))
  end.

Definition encode_error (pos : nat) (c : ascii) (run : nat) : exn :=
  Exc UnicodeEncodeError
    (if Nat.eqb run 1
     then "'ascii' codec can't encode character '" ++ hex_escape (nat_of_ascii c)
          ++ "' in position " ++ string_of_nat pos ++ ": ordinal not in range(128)"
     else "'ascii' codec can't encode characters in position " ++ string_of_nat pos
          ++ "-" ++ string_of_nat (pos + run - 1) ++ ": ordinal not in range(128)").

(** [v.encode('ascii')]: only a [str] has the method. *)
Definition py_encode_ascii (v : value) : result (list byte) :=
  match v with
  | VStr s =>
      let cs := list_ascii_of_string s in
      match find_non_ascii cs 0 with
      | None => Ok (map byte_of_ascii cs)
      | Some (pos, c, run) => Err (encode_error pos c run)
      end
  | _ => Err (Exc AttributeError (q1 ++ type_name v ++ "' object has no attribute 'encode'"))
  end.

(** ** [hashlib.sha512]

    FIPS 180-4, on 64-bit words held in [Z] with the wrap-around written
    out. *)

Module SHA512.

Local Close Scope string_scope.
Local Open Scope Z_scope.

Definition mask : Z := 0xffffffffffffffff.
Definition wrap (x : Z) : Z := Z.land x mask.
Definition add (x y : Z) : Z := wrap (x + y).
Definition rotr (n x : Z) : Z := Z.lor (Z.shiftr x n) (wrap (Z.shiftl x (64 - n))).
Definition shr (n x : Z) : Z := Z.shiftr x n.

Definition Ch (x y z : Z) : Z := Z.lxor (Z.land x y) (Z.land (Z.lxor x mask) z).
Definition Maj (x y z : Z) : Z :=
  Z.lxor (Z.lxor (Z.land x y) (Z.land x z)) (Z.land y z).
Definition Sigma0 (x : Z) : Z := Z.lxor (Z.lxor (rotr 28 x) (rotr 34 x)) (rotr 39 x).
Definition Sigma1 (x : Z) : Z := Z.lxor (Z.lxor (rotr 14 x) (rotr 18 x)) (rotr 41 x).
Definition sigma0 (x : Z) : Z := Z.lxor (Z.lxor (rotr 1 x) (rotr 8 x)) (shr 7 x).
Definition sigma1 (x : Z) : Z := Z.lxor (Z.lxor (rotr 19 x) (rotr 61 x)) (shr 6 x).

Definition H0 : list Z :=
  [ 0x6a09e667f3bcc908; 0xbb67ae8584caa73b; 0x3c6ef372fe94f82b; 0xa54ff53a5f1d36f1;
    0x510e527fade682d1; 0x9b05688c2b3e6c1f; 0x1f83d9abfb41bd6b; 0x5be0cd19137e2179 ].

Definition K : list Z :=
  [ 0x428a2f98d728ae22; 0x7137449123ef65cd; 0xb5c0fbcfec4d3b2f; 0xe9b5dba58189dbbc;
    0x3956c25bf348b538; 0x59f111f1b605d019; 0x923f82a4af194f9b; 0xab1c5ed5da6d8118;
    0xd807aa98a3030242; 0x12835b0145706fbe; 0x243185be4ee4b28c; 0x550c7dc3d5ffb4e2;
    0x72be5d74f27b896f; 0x80deb1fe3b1696b1; 0x9bdc06a725c71235; 0xc19bf174cf692694;
    0xe49b69c19ef14ad2; 0xefbe4786384f25e3; 0x0fc19dc68b8cd5b5; 0x240ca1cc77ac9c65;
    0x2de92c6f592b0275; 0x4a7484aa6ea6e483; 0x5cb0a9dcbd41fbd4; 0x76f988da831153b5;
    0x983e5152ee66dfab; 0xa831c66d2db43210; 0xb00327c898fb213f; 0xbf597fc7beef0ee4;
    0xc6e00bf33da88fc2; 0xd5a79147930aa725; 0x06ca6351e003826f; 0x142929670a0e6e70;
    0x27b70a8546d22ffc; 0x2e1b21385c26c926; 0x4d2c6dfc5ac42aed; 0x53380d139d95b3df;
    0x650a73548baf63de; 0x766a0abb3c77b2a8; 0x81c2c92e47edaee6; 0x92722c851482353b;
    0xa2bfe8a14cf10364; 0xa81a664bbc423001; 0xc24b8b70d0f89791; 0xc76c51a30654be30;
    0xd192e819d6ef5218; 0xd69906245565a910; 0xf40e35855771202a; 0x106aa07032bbd1b8;
    0x19a4c116b8d2d0c8; 0x1e376c085141ab53; 0x2748774cdf8eeb99; 0x34b0bcb5e19b48a8;
    0x391c0cb3c5c95a63; 0x4ed8aa4ae3418acb; 0x5b9cca4f7763e373; 0x682e6ff3d6b2b8a3;
    0x748f82ee5defb2fc; 0x78a5636f43172f60; 0x84c87814a1f0ab72; 0x8cc702081a6439ec;
    0x90befffa23631e28; 0xa4506cebde82bde9; 0xbef9a3f7b2c67915; 0xc67178f2e372532b;
    0xca273eceea26619c; 0xd186b8c721c0c207; 0xeada7dd6cde0eb1e; 0xf57d4f7fee6ed178;
    0x06f067aa72176fba; 0x0a637dc5a2c898a6; 0x113f9804bef90dae; 0x1b710b35131c471b;
    0x28db77f523047d84; 0x32caab7b40c72493; 0x3c9ebe0a15c9bebc; 0x431d67c49c100d4c;
    0x4cc5d4becb3e42b6; 0x597f299cfc657e2a; 0x5fcb6fab3ad6faec; 0x6c44198c4a475817 ].

(** Big-endian bytes of a word and back. *)
Definition word_of_bytes (bs : list Z) : Z :=
  fold_left (fun acc b => acc * 256 + b) bs 0.

Fixpoint bytes_of_word (n : nat) (x : Z) : list Z :=
  match n with
  | O => []
  | S m => bytes_of_word m (Z.shiftr x 8) ++ [Z.land x 255]
  end.

(** The message, the byte 0x80, zeros, and the bit length on 16 bytes, to a
    multiple of 128 bytes. *)
Definition pad (msg : list Z) : list Z :=
  let len := Z.of_nat (List.length msg) in
  let zeros := Z.to_nat ((111 - len) mod 128) in
  msg ++ [0x80] ++ repeat 0 zeros ++ bytes_of_word 16 (8 * len).

Fixpoint chunks (n : nat) (size : nat) (l : list Z) : list (list Z) :=
  match n with
  | O => []
  | S m => firstn size l :: chunks m size (skipn size l)
  end.

Definition words_of_block (block : list Z) : list Z :=
  map word_of_bytes (chunks 16 8 block).

Definition regs : Type := (Z * Z * Z * Z * Z * Z * Z * Z)%type.

Definition step (st : regs) (k w : Z) : regs :=
  let '(a, b, c, d, e, f, g, h) := st in
  let t1 := add (add (add (add h (Sigma1 e)) (Ch e f g)) k) w in
  let t2 := add (Sigma0 a) (Maj a b c) in
  (add t1 t2, a, b, c, add d t1, e, f, g).

(** The 80 rounds; [win] holds the sixteen schedule words W[t..t+15]. *)
Fixpoint rounds (ks : list Z) (win : list Z) (st : regs) : regs :=
  match ks with
  | [] => st
  | k :: ks' =>
      match win with
      | [] => st
      | w :: rest =>
          let next :=
            add (add (add (sigma1 (nth 14 win 0)) (nth 9 win 0)) (sigma0 (nth 1 win 0))) w in
          rounds ks' (rest ++ [next]) (step st k w)
      end
  end.

Definition compress (st : regs) (block : list Z) : regs :=
  let '(a, b, c, d, e, f, g, h) := st in
  let '(a', b', c', d', e', f', g', h') := rounds K (words_of_block block) st in
  (add a a', add b b', add c c', add d d', add e e', add f f', add g g', add h h').

Definition initial : regs :=
  (nth 0 H0 0, nth 1 H0 0, nth 2 H0 0, nth 3 H0 0,
   nth 4 H0 0, nth 5 H0 0, nth 6 H0 0, nth 7 H0 0).

Definition to_byte (z : Z) : byte :=
  match Byte.of_N (Z.to_N z) with
  | Some b => b
  | None => x00
  end.

Definition digest (msg : list byte) : list byte :=
  let padded := pad (map (fun b => Z.of_N (Byte.to_N b)) msg) in
  let blocks := chunks (Nat.div (List.length padded) 128) 128 padded in
  let '(a, b, c, d, e, f, g, h) := fold_left compress blocks initial in
  map to_byte (flat_map (bytes_of_word 8) [a; b; c; d; e; f; g; h]).

End SHA512.

Local Open Scope string_scope.

(** The bytes as hexadecimal text, two digits each ([bytes.hex()]). *)
Definition hex_of_bytes (b : list byte) : string :=
  String.concat EmptyString
    (map (fun x =>
            let n := N.to_nat (Byte.to_N x) in
            String (hex_digit (Nat.div n 16))
              (String (hex_digit (Nat.modulo n 16)) EmptyString)) b).

Definition bytes_of_string (s : string) : list byte :=
  map byte_of_ascii (list_ascii_of_string s).

(** [hashlib.sha512(data).digest()]. *)
Definition sha512_digest (data : list byte) : list byte := SHA512.digest data.

(** ** The collaborators

    [self.tutti] (a [TuttiClient]) and the [Duct] of the marketplace
    controller are libraries outside this repository.  The client reaches
    them through four kinds of request; what they answer, and how their
    state moves, is a parameter of the model. *)

(** The duct a call goes through: [self.tutti._duct] or [self.market._duct]. *)
Inductive side : Type := Works | Market.

Inductive request : Type :=
| DuctOpen (d : side) (wsd_url : string)
    (* [duct.open(wsd_url)] *)
| DuctCall (d : side) (event : string) (data : value)
    (* [duct.call(duct.EVENT[event], data)]: the reading of the entry of
       the event table and the call *)
| ResourceCall (method : string) (args : list value) (kwargs : list (string * value))
    (* [self.tutti.resource.<method>( *args, **kwargs )] *)
| ResourceOn (name : string) (handler : callable).
    (* [self.tutti.resource.on(name, handler)] *)

(** How a call, or a whole method, ends: it returns, it raises, or it never
    completes (the awaiting coroutine stays suspended). *)
Inductive outcome (A : Type) : Type :=
| Return (a : A)
| Raise (e : exn)
| Pending.
Arguments Return {A} a.
Arguments Raise {A} e.
Arguments Pending {A}.

Class Collaborators : Type := {
  World : Type;
  (* [self.tutti.account_info] *)
  account_info : World -> value;
  (* [int(time.time())], the integer part of the clock *)
  unix_time : World -> Z;
  (* [duct.EVENT[event]]: the entry of the event table of a duct, or the
     exception of the subscription where the table has no such entry *)
  duct_event : side -> string -> World -> result value;
  respond : request -> World -> outcome value * World;
  (* the entry is read before the call is made: without the entry the
     request ends in the exception of the subscription, and nothing else
     happens *)
  lookup_first :
    forall (d : side) (event : string) (data : value) (w : World) (e : exn),
      duct_event d event w = Err e ->
      respond (DuctCall d event data) w = (Raise e, w)
}.

(** What a run leaves behind, in order. *)
Inductive event : Type :=
| Issued (r : request)
| Completed (r : request) (res : result value)
| Printed (args : list value)
| Traceback (e : exn).

(** The attributes of a [TuttiMarketController] besides its duct:
    [access_token], [None] while the attribute does not exist. *)
Record TuttiMarketController : Type := { access_token : option value }.

Section Monad.

Context {C : Collaborators}.

Record state : Type := { world : World; market : TuttiMarketController }.

Definition set_world (s : state) (w : World) : state :=
  {| world := w; market := market s |}.

Definition set_market (s : state) (m : TuttiMarketController) : state :=
  {| world := world s; market := m |}.

Definition M (A : Type) : Type := state -> outcome A * state * list event.

Definition ret {A : Type} (a : A) : M A := fun s => (Return a, s, []).

Definition raise {A : Type} (e : exn) : M A := fun s => (Raise e, s, []).

Definition bind {A B : Type} (m : M A) (k : A -> M B) : M B :=
  fun s =>
    match m s with
    | (Return a, s1, l1) => let '(o, s2, l2) := k a s1 in (o, s2, (l1 ++ l2)%list)
    | (Raise e, s1, l1) => (Raise e, s1, l1)
    | (Pending, s1, l1) => (Pending, s1, l1)
    end.

Definition lift {A : Type} (r : result A) : M A :=
  match r with
  | Ok a => ret a
  | Err e => raise e
  end.

(** [try: m  except: h]: a bare [except] catches every exception. *)
Definition try_except {A : Type} (m : M A) (h : exn -> M A) : M A :=
  fun s =>
    match m s with
    | (Raise e, s1, l1) => let '(o, s2, l2) := h e s1 in (o, s2, (l1 ++ l2)%list)
    | r => r
    end.

(** Issue a request to a collaborator and wait for it. *)
Definition call (r : request) : M value :=
  fun s =>
    match respond r (world s) with
    | (Return v, w) => (Return v, set_world s w, [Issued r; Completed r (Ok v)])
    | (Raise e, w) => (Raise e, set_world s w, [Issued r; Completed r (Err e)])
    | (Pending, w) => (Pending, set_world s w, [Issued r])
    end.

(** [await duct.call(duct.EVENT[event], data)].  The arguments are
    evaluated from left to right: the entry of the event table is read,
    then [data] is built, then the call is made.  A request [DuctCall]
    stands for the reading of the entry and the call together, so a missing
    entry shows as the request raising ([lookup_first]).  Where [data]
    cannot be built there is no request; the exception is then the one of
    the missing entry, which comes first, if the entry is missing. *)
Definition duct_call (d : side) (event : string) (data : M value) : M value :=
  fun s =>
    match duct_event d event (world s), data s with
    | Err e, (Raise _, _, _) => (Raise e, s, [])
    | _, _ => bind data (fun v => call (DuctCall d event v)) s
    end.

(** [print( *args )]. *)
Definition print (args : list value) : M unit :=
  fun s => (Return tt, s, [Printed args]).

(** [traceback.print_exc()] in the handler of [e]. *)
Definition print_exc (e : exn) : M unit :=
  fun s => (Return tt, s, [Traceback e]).

Definition works_account_info : M value :=
  fun s => (Return (account_info (world s)), s, []).

Definition time_time : M Z :=
  fun s => (Return (unix_time (world s)), s, []).

(** [self.access_token] on the controller. *)
Definition get_access_token : M value :=
  fun s =>
    match access_token (market s) with
    | Some t => (Return t, s, [])
    | None =>
        (Raise (Exc AttributeError
                  "'TuttiMarketController' object has no attribute 'access_token'"),
         s, [])
    end.

(** [self.access_token = t]. *)
Definition set_access_token (t : value) : M unit :=
  fun s => (Return tt, set_market s {| access_token := Some t |}, []).

(** The events [l], then the run [r]. *)
Definition emit {A : Type} (l : list event) (r : outcome A * state * list event)
    : outcome A * state * list event :=
  let '(o, s, l') := r in (o, s, (l ++ l')%list).

Definition result_of {A : Type} (r : outcome A * state * list event) : outcome A :=
  fst (fst r).

Definition state_of {A : Type} (r : outcome A * state * list event) : state :=
  snd (fst r).

Definition events_of {A : Type} (r : outcome A * state * list event) : list event :=
  snd r.

End Monad.

Declare Scope monad_scope.
Delimit Scope monad_scope with monad.
Notation "x <- m ;; k" := (bind m (fun x => k))
  (at level 100, m at next level, right associativity) : monad_scope.
Notation "m ;; k" := (bind m (fun _ => k))
  (at level 100, right associativity) : monad_scope.
Local Open Scope monad_scope.

(** ** [market_controller.py] *)

Module Controller.
Section Methods.

Context {C : Collaborators}.

(** [TuttiMarketController.__init__(duct)]: only [_duct] is assigned. *)
Definition init : TuttiMarketController := {| access_token := None |}.

Definition open (wsd_url : string) : M value :=
  call (DuctOpen Market wsd_url);;
  ret VNone.

Definition register_job
    (job_class_id job_parameter description num_job_assignments_max priority_score : value)
    : M value :=
  data <- duct_call Market "REGISTER_JOB"
            (token <- get_access_token;;
             ret (VDict
               [ ("access_token", token);
                 ("job_class_id", job_class_id);
                 ("job_parameter", job_parameter);
                 ("description", description);
                 ("num_job_assignments_max", num_job_assignments_max);
                 ("priority_score", priority_score) ]));;
  ret data.

Definition sign_in (user_id password access_token_lifetime : value) : M value :=
  data <- duct_call Market "SIGN_IN"
            (encoded <- lift (py_encode_ascii password);;
             ret (VDict
               [ ("user_id", user_id);
                 ("password_hash", VBytes (sha512_digest encoded));
                 ("access_token_lifetime", access_token_lifetime) ]));;
  body <- lift (subscript data "body");;
  token <- lift (subscript body "access_token");;
  set_access_token token;;
  ret VNone.

Definition sign_out : M value :=
  duct_call Market "SIGN_OUT"
    (token <- get_access_token;;
     ret (VDict [ ("access_token", token) ]));;
  ret VNone.

End Methods.
End Controller.

(** ** [main.py] *)

Module Facade.
Section Methods.

Context {C : Collaborators}.

(** *** Passing a [dict] as keyword arguments *)

Definition kw_get (kw : list (string * value)) (name : string) (default : value) : value :=
  match dict_get kw name with
  | Some v => v
  | None => default
  end.

Definition mem_string (k : string) (names : list string) : bool :=
  existsb (String.eqb k) names.

(** The keywords that no named parameter takes. *)
Definition kw_rest (names : list string) (kw : list (string * value))
    : list (string * value) :=
  filter (fun kv => negb (mem_string (fst kv) names)) kw.

(** The first keyword that the signature refuses: [self], bound already, or
    a name that is no parameter when there is no [**kwargs]. *)
Definition kw_refused (fname : string) (names : list string) (var_keyword : bool)
    (kw : list (string * value)) : option exn :=
  match
    find (fun kv => String.eqb (fst kv) "self"
                    || (negb var_keyword && negb (mem_string (fst kv) names))) kw
  with
  | None => None
  | Some (k, _) =>
      Some (Exc TypeError
        (if String.eqb k "self"
         then fname ++ "() got multiple values for argument 'self'"
         else fname ++ "() got an unexpected keyword argument '" ++ k ++ "'"))
  end.

(** [sign_in_works(self, user_name=None, password_hash=None,
    access_token=None, **kwargs)] called as [sign_in_works( **params )]. *)
Definition bind_sign_in_works (params : list (string * value))
    : result (value * value * value * list (string * value)) :=
  let names := ["user_name"; "password_hash"; "access_token"] in
  match kw_refused "NejiFinderTuttiClient.sign_in_works" names true params with
  | Some e => Err e
  | None =>
      Ok (kw_get params "user_name" VNone,
          kw_get params "password_hash" VNone,
          kw_get params "access_token" VNone,
          kw_rest names params)
  end.

(** [sign_in_market(self, user_id, password,
    access_token_lifetime=60*60*24*7*1000)] called as
    [sign_in_market( **params )]. *)
Definition bind_sign_in_market (params : list (string * value))
    : result (value * value * value) :=
  let fname := "NejiFinderTuttiClient.sign_in_market" in
  match
    kw_refused fname ["user_id"; "password"; "access_token_lifetime"] false params
  with
  | Some e => Err e
  | None =>
      match dict_get params "user_id", dict_get params "password" with
      | Some u, Some p =>
          Ok (u, p, kw_get params "access_token_lifetime" (VInt (60 * 60 * 24 * 7 * 1000)))
      | None, Some _ =>
          Err (Exc TypeError (fname ++ "() missing 1 required positional argument: 'user_id'"))
      | Some _, None =>
          Err (Exc TypeError (fname ++ "() missing 1 required positional argument: 'password'"))
      | None, None =>
          Err (Exc TypeError
            (fname ++ "() missing 2 required positional arguments: 'user_id' and 'password'"))
      end
  end.

(** *** Signing in and out *)

Definition sign_in_market (user_id password access_token_lifetime : value) : M value :=
  Controller.sign_in user_id password access_token_lifetime;;
  ret VNone.

Definition sign_in_works
    (user_name password_hash access_token : value) (kwargs : list (string * value))
    : M value :=
  call (ResourceCall "sign_in" [user_name; password_hash; access_token] kwargs);;
  ret VNone.

Definition sign_in (works_params market_params : list (string * value)) : M value :=
  (* await self.sign_in_works( **works_params ) *)
  wargs <- lift (bind_sign_in_works works_params);;
  (let '(user_name, password_hash, access_token, kwargs) := wargs in
   sign_in_works user_name password_hash access_token kwargs);;
  (* await self.sign_in_market( **market_params ) *)
  margs <- lift (bind_sign_in_market market_params);;
  (let '(user_id, password, access_token_lifetime) := margs in
   sign_in_market user_id password access_token_lifetime);;
  ret VNone.

Definition sign_out_market : M value :=
  Controller.sign_out;;
  ret VNone.

Definition sign_out_works : M value :=
  call (ResourceCall "sign_out" [] []);;
  ret VNone.

Definition sign_out : M value :=
  sign_out_market;;
  sign_out_works;;
  ret VNone.

(** *** Publishing *)

(** [lambda x: int(x) if x is not None and x!='' else None] *)
Definition int_or_none (x : value) : result value :=
  match x with
  | VNone => Ok VNone
  | _ =>
      if ne_str x EmptyString
      then rbind (py_int x) (fun n => Ok (VInt n))
      else Ok VNone
  end.

(** [f'Automation parameter set ID "{automation_parameter_set_id}" is not defined'] *)
Definition aps_not_defined (automation_parameter_set_id : string) : string :=
  "Automation parameter set ID " ++ q2 ++ automation_parameter_set_id ++ q2
  ++ " is not defined".

(** The template ['Platform parameter set ID "{}}" is not defined']. *)
Definition pps_not_defined_template : string :=
  "Platform parameter set ID " ++ q2 ++ "{}}" ++ q2 ++ " is not defined".

(** The template ['Platform parameter set ID "{}" is not set for market']. *)
Definition pps_not_market_template : string :=
  "Platform parameter set ID " ++ q2 ++ "{}" ++ q2 ++ " is not set for market".

(** The two lookups as they are sent. *)
Definition aps_get_request (automation_parameter_set_id : string) (token : value)
    : request :=
  DuctCall Works "AUTOMATION_PARAMETER_SET_GET" (VDict
    [ ("automation_parameter_set_id", VStr automation_parameter_set_id);
      ("access_token", token) ]).

Definition pps_get_request (platform_parameter_set_id token : value) : request :=
  DuctCall Works "PLATFORM_PARAMETER_SET_GET" (VDict
    [ ("platform_parameter_set_id", platform_parameter_set_id);
      ("access_token", token) ]).

Definition create_nanotasks_request (project_name : value) (time : Z) (sync_id : string)
    : request :=
  ResourceCall "create_nanotasks" []
    [ ("project_name", project_name);
      ("template_name", VStr "NejiFinderApp");
      ("nanotasks", VList
         [ VDict [ ("id", VStr (string_of_Z time));
                   ("props", VDict [ ("sync_id", VStr sync_id) ]) ] ]);
      ("tag", VStr EmptyString);
      ("priority", VInt 100);
      ("num_assignable", VInt 0) ].

Definition create_nanotask_group_request (time : Z) (nids project_name : value)
    : request :=
  ResourceCall "create_nanotask_group" []
    [ ("name", VStr (string_of_Z time));
      ("nanotask_ids", nids);
      ("project_name", project_name);
      ("template_name", VStr "NejiFinderApp") ].

Definition job_parameter_of (ngid : value) (automation_parameter_set_id : string)
    (platform_parameter_set_id : value) : value :=
  VDict [ ("nanotask_group_ids", VList [ngid]);
          ("automation_parameter_set_id", VStr automation_parameter_set_id);
          ("platform_parameter_set_id", platform_parameter_set_id) ].

(** The suite of the [try] statement of [publish_tasks_to_market]: the job
    is registered and the answer checked.  [Error] is not a name of the
    module, so the [raise] of the [else] branch ends in a [NameError]. *)
Definition register_job_suite (pps job_parameter : value) (time : Z) (ngid : value)
    : M value :=
  parameters <- lift (subscript pps "parameters");;
  job_class_id <- lift (subscript parameters "job_class_id");;
  parameters <- lift (subscript pps "parameters");;
  x <- lift (subscript parameters "num_job_assignments_max");;
  num_job_assignments_max <- lift (int_or_none x);;
  parameters <- lift (subscript pps "parameters");;
  x <- lift (subscript parameters "priorityScore");;
  priority_score <- lift (int_or_none x);;
  res <- Controller.register_job job_class_id job_parameter
           (VStr ("created at " ++ string_of_Z time))
           num_job_assignments_max priority_score;;
  success <- lift (subscript res "success");;
  jid <- (if truthy success then lift (subscript res "body")
          else raise (Exc NameError "name 'Error' is not defined"));;
  parameters <- lift (subscript pps "parameters");;
  job_class_id <- lift (subscript parameters "job_class_id");;
  print [VStr "Job Class ID:"; job_class_id];;
  print [VStr "Job ID:"; jid];;
  ret (VTuple [ngid; jid]).

(** The handler of the bare [except:]; the method then ends without a
    [return], that is with [None]. *)
Definition log_and_swallow (e : exn) : M value :=
  print_exc e;;
  ret VNone.

Definition publish_tasks_to_market (automation_parameter_set_id sync_id : string)
    : M value :=
  data <- duct_call Works "AUTOMATION_PARAMETER_SET_GET"
            (info <- works_account_info;;
             token <- lift (subscript info "access_token");;
             ret (VDict
               [ ("automation_parameter_set_id", VStr automation_parameter_set_id);
                 ("access_token", token) ]));;
  aps <- (if truthy data then
            content <- lift (subscript data "content");;
            if truthy content then lift (subscript data "content")
            else raise (Exc Exception (aps_not_defined automation_parameter_set_id))
          else raise (Exc Exception (aps_not_defined automation_parameter_set_id)));;

  data <- duct_call Works "PLATFORM_PARAMETER_SET_GET"
            (ppsid <- lift (subscript aps "platform_parameter_set_id");;
             info <- works_account_info;;
             token <- lift (subscript info "access_token");;
             ret (VDict
               [ ("platform_parameter_set_id", ppsid);
                 ("access_token", token) ]));;
  pps <- (if truthy data then lift (subscript data "content")
          else
            ppsid <- lift (subscript aps "platform_parameter_set_id");;
            msg <- lift (str_format pps_not_defined_template [ppsid] 0);;
            raise (Exc Exception msg));;

  platform <- lift (subscript pps "platform");;
  (if ne_str platform "market" then
     ppsid <- lift (subscript aps "platform_parameter_set_id");;
     msg <- lift (str_format pps_not_market_template [ppsid] 0);;
     raise (Exc Exception msg)
   else ret tt);;

  time <- time_time;;
  project_name <- lift (subscript aps "project_name");;
  r <- call (create_nanotasks_request project_name time sync_id);;
  nids <- lift (subscript r "nanotask_ids");;
  print [VStr "Nanotask IDs:"; nids];;
  project_name <- lift (subscript aps "project_name");;
  ngid <- call (create_nanotask_group_request time nids project_name);;
  print [VStr "Nanotask Group ID:"; ngid];;

  ppsid <- lift (subscript aps "platform_parameter_set_id");;
  try_except
    (register_job_suite pps (job_parameter_of ngid automation_parameter_set_id ppsid)
       time ngid)
    log_and_swallow.

(** *** Watching *)

Definition watch_send_request (automation_parameter_set_id last_watch_id : string)
    : request :=
  ResourceCall "watch_responses_for_automation_parameter_set.send" []
    [ ("automation_parameter_set_id", VStr automation_parameter_set_id);
      ("last_watch_id", VStr last_watch_id);
      ("exclusive", VBool true) ].

(** [last_watch_id] is [None] when the caller leaves the default ['+']. *)
Definition watch_responses_for_tasks
    (automation_parameter_set_id : string) (handler : callable)
    (last_watch_id : option string) : M value :=
  let last_watch_id := match last_watch_id with Some l => l | None => "+" end in
  call (ResourceOn "watch_responses_for_automation_parameter_set" handler);;
  call (watch_send_request automation_parameter_set_id last_watch_id);;
  ret VNone.

End Methods.
End Facade.

(** * Vocabulary of the properties *)

(** [msg] mentions [id]: [id] is a substring of [msg]. *)
Definition mentions (id msg : string) : Prop :=
  exists pre post, msg = pre ++ id ++ post.

(** An answer that carries no record: it is falsy, or its content is. *)
Definition no_record (data : value) : Prop :=
  truthy data = false \/
  exists content, subscript data "content" = Ok content /\ truthy content = false.

(** The requests issued during a run, in order. *)
Fixpoint issued (l : list event) : list request :=
  match l with
  | [] => []
  | Issued r :: l' => r :: issued l'
  | _ :: l' => issued l'
  end.

(** The fields of the data a request carries. *)
Definition request_fields (r : request) : list (string * value) :=
  match r with
  | DuctCall _ _ (VDict kvs) => kvs
  | ResourceCall _ _ kwargs => kwargs
  | _ => []
  end.

Definition is_market_request (r : request) : bool :=
  match r with
  | DuctOpen Market _ => true
  | DuctCall Market _ _ => true
  | _ => false
  end.

Definition is_nanotask_creation (r : request) : bool :=
  match r with
  | ResourceCall method _ _ =>
      String.eqb method "create_nanotasks" || String.eqb method "create_nanotask_group"
  | _ => false
  end.

Definition no_attribute_access_token : exn :=
  Exc AttributeError "'TuttiMarketController' object has no attribute 'access_token'".

(** The request [sign_in_works( **works_params )] sends. *)
Definition works_sign_in_request (works_params : list (string * value)) : request :=
  ResourceCall "sign_in"
    [ Facade.kw_get works_params "user_name" VNone;
      Facade.kw_get works_params "password_hash" VNone;
      Facade.kw_get works_params "access_token" VNone ]
    (Facade.kw_rest ["user_name"; "password_hash"; "access_token"] works_params).

(** The request [TuttiMarketController.sign_in] sends for an encoded
    password. *)
Definition market_sign_in_request (user_id : value) (encoded : list byte)
    (access_token_lifetime : value) : request :=
  DuctCall Market "SIGN_IN" (VDict
    [ ("user_id", user_id);
      ("password_hash", VBytes (sha512_digest encoded));
      ("access_token_lifetime", access_token_lifetime) ]).

Definition watch_on_request (handler : callable) : request :=
  ResourceOn "watch_responses_for_automation_parameter_set" handler.

Section Histories.

Context {C : Collaborators}.

(** The exception of [duct.call(duct.EVENT[event], data)] in the world [w]
    when the building of [data] raises [e]: the exception of the reading of
    the entry where the entry is missing, [e] otherwise. *)
Definition raised_unsent (d : side) (event : string) (w : World) (e : exn) : exn :=
  match duct_event d event w with
  | Ok _ => e
  | Err e' => e'
  end.

(** The states of a client whose controller was constructed and on which
    no [sign_in] has returned: whatever the collaborators did, whichever
    other method of the controller ran, and however often [sign_in]
    failed. *)
Inductive never_signed_in : state -> Prop :=
| Fresh (w : World) :
    never_signed_in {| world := w; market := Controller.init |}
| WorldMoved (s : state) (w : World) :
    never_signed_in s -> never_signed_in (set_world s w)
| Opened (s : state) (wsd_url : string) :
    never_signed_in s -> never_signed_in (state_of (Controller.open wsd_url s))
| RegisterJobTried (s : state) (jc jp d n p : value) :
    never_signed_in s ->
    never_signed_in (state_of (Controller.register_job jc jp d n p s))
| SignOutTried (s : state) :
    never_signed_in s -> never_signed_in (state_of (Controller.sign_out s))
| SignInFailed (s : state) (user_id password lifetime : value) :
    never_signed_in s ->
    (forall v, result_of (Controller.sign_in user_id password lifetime s) <> Return v) ->
    never_signed_in (state_of (Controller.sign_in user_id password lifetime s)).

End Histories.

(** ** A scripted world

    The answers of the collaborators, in the order the requests arrive; a
    request that finds the script empty is never answered.  The event
    tables of the ducts have an entry for every event. *)

Definition scripted (info : value) (now : Z) : Collaborators :=
  {| World := list (outcome value);
     account_info := fun _ => info;
     unix_time := fun _ => now;
     duct_event := fun _ _ _ => Ok (VInt 0);
     respond := fun _ w =>
       match w with
       | [] => (Pending, [])
       | o :: w' => (o, w')
       end;
     lookup_first := fun _ _ _ _ _ H =>
       match H in (_ = r) return (match r with Ok _ => True | Err _ => _ end) with
       | eq_refl => I
       end |}.

Definition demo_info : value := VDict [ ("access_token", VStr "works-token") ].

Definition demo_world : Collaborators := scripted demo_info 1700000000.

Definition demo_state (script : list (outcome value)) (token : option value)
    : @state demo_world :=
  {| world := script : @World demo_world; market := {| access_token := token |} |}.

(** The scenario of the specification: APS [aps-1], PPS [pps-1]. *)
Definition demo_aps_record : value :=
  VDict [ ("platform_parameter_set_id", VStr "pps-1"); ("project_name", VStr "neji") ].

Definition demo_aps : value := VDict [ ("content", demo_aps_record) ].

(** [key] is the name under which the bag holds the priority score. *)
Definition demo_bag (key : string) : value :=
  VDict [ ("job_class_id", VStr "jc1");
          ("num_job_assignments_max", VStr EmptyString);
          (key, VStr "5") ].

Definition demo_pps_record (platform key : string) : value :=
  VDict [ ("platform", VStr platform); ("parameters", demo_bag key) ].

Definition demo_pps (platform key : string) : value :=
  VDict [ ("content", demo_pps_record platform key) ].

Definition demo_nanotasks : value := VDict [ ("nanotask_ids", VList [VStr "nt-1"]) ].

Definition demo_job (success : bool) : value :=
  VDict [ ("success", VBool success); ("body", VStr "job-9") ].

Definition demo_error : exn := Exc (OtherError "TuttiServerError") "refused".

Definition demo_signed_in : value :=
  VDict [ ("body", VDict [ ("access_token", VStr "market-token") ]) ].

(** ** A world without events

    The attribute [EVENT] of both ducts is [table], a value without the
    entries of the events; no other request is ever answered. *)

Definition without_events (table : value) : Collaborators :=
  {| World := unit;
     account_info := fun _ => VNone;
     unix_time := fun _ => 0%Z;
     duct_event := fun _ event _ => subscript table event;
     respond := fun r w =>
       match r with
       | DuctCall _ event _ =>
           match subscript table event with
           | Err e => (Raise e, w)
           | Ok _ => (Pending, w)
           end
       | _ => (Pending, w)
       end;
     lookup_first := fun _ event _ w e H =>
       match eq_sym H in (_ = r)
         return (match r with Err e' => (Raise e', w) | Ok _ => (Pending, w) end
                 = (Raise e, w))
       with
       | eq_refl => eq_refl
       end |}.

(** A controller that was constructed and nothing else. *)
Definition fresh_controller (table : value) : @state (without_events table) :=
  {| world := tt : @World (without_events table); market := Controller.init |}.


(** * Connections: [open_works], [open_market], [close]

    The ducts report a connection failure by calling the [onerror] listener
    of their [connection_listener], outside the call that opens the
    connection.  What the listener hears, the passing of the grace period
    and the [close] of the Tutti.works client are further parameters of the
    model. *)

Class Connections {C : Collaborators} : Type := {
  (* the object a duct passes to its [onerror] listener *)
  ConnectionEvent : Type;
  (* [duct.connection_listener.onerror = on_error] *)
  listen : side -> World -> World;
  (* [await asyncio.sleep(0.1)] *)
  grace : World -> World;
  (* the events that the listener installed last on a duct was called with,
     oldest first: the list [err] of the method that installed it *)
  heard : side -> World -> list ConnectionEvent;
  (* [self.tutti.close()] *)
  works_close : World -> outcome value * World
}.

(** [host[-1]], [None] on the empty string. *)
Fixpoint last_char (s : string) : option ascii :=
  match s with
  | EmptyString => None
  | String c r =>
      match r with
      | EmptyString => Some c
      | _ => last_char r
      end
  end.

(** [host[:-1]]. *)
Fixpoint drop_last (s : string) : string :=
  match s with
  | EmptyString => EmptyString
  | String c r =>
      match r with
      | EmptyString => EmptyString
      | _ => String c (drop_last r)
      end
  end.

(** [if host[-1] == '/': host = host[:-1]] *)
Definition strip_trailing_slash (host : string) : result string :=
  match last_char host with
  | None => Err (Exc IndexError "string index out of range")
  | Some c => Ok (if Ascii.eqb c "/" then drop_last host else host)
  end.

Module Connection.
Section Methods.

Context {C : Collaborators} {T : Connections}.

(** How [open_works] and [open_market] end when no exception of a
    collaborator or of the interpreter ends them: by returning [None], or
    by raising [NejiFinderTuttiClientConnectionError(resource, err)].  The
    [err] of that exception is an object of the duct library, which [exn]
    cannot carry, so the exception is a result of its own. *)
Inductive opening : Type :=
| Opened
| NejiFinderTuttiClientConnectionError (resource : string) (err : ConnectionEvent).

Definition install_listener (d : side) : M unit :=
  fun s => (Return tt, set_world s (listen d (world s)), []).

Definition sleep_grace : M unit :=
  fun s => (Return tt, set_world s (grace (world s)), []).

(** The list [err] when the method reads it. *)
Definition errors_heard (d : side) : M (list ConnectionEvent) :=
  fun s => (Return (heard d (world s)), s, []).

Definition tutti_close : M value :=
  fun s => let '(o, w) := works_close (world s) in (o, set_world s w, []).

(** [self.tutti.open(url)] is the open request on the Tutti.works side. *)
Definition open_works (host : string) : M opening :=
  host <- lift (strip_trailing_slash host);;
  install_listener Works;;
  call (DuctOpen Works (host ++ "/ducts/wsd"));;
  sleep_grace;;
  err <- errors_heard Works;;
  match err with
  | e :: _ => ret (NejiFinderTuttiClientConnectionError "Tutti.works" e)
  | [] => ret Opened
  end.

Definition open_market (host : string) : M opening :=
  host <- lift (strip_trailing_slash host);;
  install_listener Market;;
  Controller.open (host ++ "/ducts/wsd");;
  sleep_grace;;
  err <- errors_heard Market;;
  match err with
  | e :: _ => ret (NejiFinderTuttiClientConnectionError "Tutti.market" e)
  | [] => ret Opened
  end.

Definition close_works : M value :=
  tutti_close;;
  ret VNone.

(** [self.market.close()]: [TuttiMarketController] defines no [close]. *)
Definition close_market : M value :=
  raise (Exc AttributeError "'TuttiMarketController' object has no attribute 'close'").

Definition close : M value :=
  close_works;;
  close_market;;
  ret VNone.

End Methods.
End Connection.

(** ** Vocabulary of the further properties *)

(** The steps of [publish_tasks_to_market] that send a request. *)
Inductive publish_step : Type :=
| LookupAPS
| LookupPPS
| CreateNanotasks
| CreateNanotaskGroup
| RegisterJob
| OtherRequest.

Definition step_of (r : request) : publish_step :=
  match r with
  | DuctCall Works event _ =>
      if String.eqb event "AUTOMATION_PARAMETER_SET_GET" then LookupAPS
      else if String.eqb event "PLATFORM_PARAMETER_SET_GET" then LookupPPS
      else OtherRequest
  | DuctCall Market event _ =>
      if String.eqb event "REGISTER_JOB" then RegisterJob else OtherRequest
  | ResourceCall method _ _ =>
      if String.eqb method "create_nanotasks" then CreateNanotasks
      else if String.eqb method "create_nanotask_group" then CreateNanotaskGroup
      else OtherRequest
  | _ => OtherRequest
  end.

Definition step_eqb (a b : publish_step) : bool :=
  match a, b with
  | LookupAPS, LookupAPS => true
  | LookupPPS, LookupPPS => true
  | CreateNanotasks, CreateNanotasks => true
  | CreateNanotaskGroup, CreateNanotaskGroup => true
  | RegisterJob, RegisterJob => true
  | OtherRequest, OtherRequest => true
  | _, _ => false
  end.

(** [l] is an initial segment of [full]. *)
Fixpoint is_prefix (l full : list publish_step) : bool :=
  match l, full with
  | [], _ => true
  | a :: l', b :: full' => step_eqb a b && is_prefix l' full'
  | _ :: _, [] => false
  end.

Definition publish_order : list publish_step :=
  [LookupAPS; LookupPPS; CreateNanotasks; CreateNanotaskGroup; RegisterJob].

Section Invariants.

Context {C : Collaborators}.

(** A computation that leaves the attributes of the controller as they
    are, however it ends. *)
Definition keeps_controller {A : Type} (m : M A) : Prop :=
  forall s, market (state_of (m s)) = market s.

(** The request [register_job] sends with the token [token]. *)
Definition register_job_request
    (token job_class_id job_parameter description num_job_assignments_max priority_score
       : value) : request :=
  DuctCall Market "REGISTER_JOB" (VDict
    [ ("access_token", token);
      ("job_class_id", job_class_id);
      ("job_parameter", job_parameter);
      ("description", description);
      ("num_job_assignments_max", num_job_assignments_max);
      ("priority_score", priority_score) ]).

Definition sign_out_request (token : value) : request :=
  DuctCall Market "SIGN_OUT" (VDict [ ("access_token", token) ]).

End Invariants.

(** A scripted world with connections: the listeners hear the events of
    [errors] from the start. *)
Definition demo_connections (errors : side -> list string) (closing : outcome value)
    : @Connections demo_world :=
  {| ConnectionEvent := string;
     listen := fun _ w => w;
     grace := fun w => w;
     heard := fun d _ => errors d;
     works_close := fun w => (closing, w) |}.
(** * Properties *)

(** ** The primitives on known values *)

(** The test vector of FIPS 180-4 for the message [abc]. *)
Example sha512_abc :
  hex_of_bytes (sha512_digest (bytes_of_string "abc")) =
  "ddaf35a193617abacc417349ae20413112e6fa4e89a97ea20a9eeee64b55d39a"
  ++ "2192992a274fc1a836ba3c23a3feebbd454d4423643ce80e2a9ac94fa54ca49f".
Proof. vm_compute; reflexivity. Qed.

(** A message of 112 bytes, which the padding extends to two blocks. *)
Example sha512_two_blocks :
  hex_of_bytes (sha512_digest (repeat "a"%byte 112)) =
  "c01d080efd492776a1c43bd23dd99d0a2e626d481e16782e75d54c2503b5dc32"
  ++ "bd05f0f1ba33e568b88fd2d970929b719ecbb152f58f130a407c8830604b70ca".
Proof. vm_compute; reflexivity. Qed.

Example int_or_none_values :
  map Facade.int_or_none [VNone; VStr EmptyString; VStr "5"; VStr " -1_0 "; VInt 7] =
  [Ok VNone; Ok VNone; Ok (VInt 5); Ok (VInt (-10)); Ok (VInt 7)].
Proof. reflexivity. Qed.

Example int_or_none_rejects :
  Facade.int_or_none (VStr "5x") =
  Err (Exc ValueError "invalid literal for int() with base 10: '5x'").
Proof. reflexivity. Qed.

(** A literal of 4301 digits is refused, and the message about a text that
    is no literal shows the first 200 characters of its [repr]. *)
Example int_refuses_long_literals :
  py_int (VStr (string_of_list_ascii (repeat "1"%char 4301)))
    = Err (exceeds_digit_limit 4301) /\
  exc_msg (exceeds_digit_limit 4301)
    = ("Exceeds the limit (4300 digits) for integer string conversion: "
       ++ "value has 4301 digits; "
       ++ "use sys.set_int_max_str_digits() to increase the limit") /\
  py_int (VStr (string_of_list_ascii (repeat "x"%char 300)))
    = Err (Exc ValueError
             ("invalid literal for int() with base 10: '"
              ++ string_of_list_ascii (repeat "x"%char 199))).
Proof. vm_compute; repeat split. Qed.

Example str_format_values :
  map (fun t => str_format t [VInt 1; VNone] 0) ["a{}b{}"; "{{}}"; "{}{}{}"; "{"] =
  [ Ok "a1bNone"; Ok "{}";
    Err (Exc IndexError "Replacement index 2 out of range for positional args tuple");
    Err (Exc ValueError "Single '{' encountered in format string") ].
Proof. reflexivity. Qed.

Example py_str_values :
  py_str (VDict [("ids", VList [VStr "it's"; VInt (-3); VTuple [VBool true]; VNone])]) =
  "{'ids': [" ++ q2 ++ "it's" ++ q2 ++ ", -3, (True,), None]}".
Proof. reflexivity. Qed.

Example encode_rejects_latin1 :
  py_encode_ascii (VStr ("caf" ++ String "233"%char EmptyString)) =
  Err (Exc UnicodeEncodeError
         ("'ascii' codec can't encode character '" ++ String backslash "xe9"
          ++ "' in position 3: ordinal not in range(128)")).
Proof. reflexivity. Qed.

(** ** Reasoning about runs *)

Section Runs.

Context {C : Collaborators}.

Lemma emit_nil {A : Type} (r : outcome A * state * list event) : emit [] r = r.
Proof. destruct r as [[o s] l]; reflexivity. Qed.

Lemma emit_emit {A : Type} (l1 l2 : list event) (r : outcome A * state * list event) :
  emit l1 (emit l2 r) = emit (l1 ++ l2)%list r.
Proof. destruct r as [[o s] l]; simpl; now rewrite app_assoc. Qed.

Lemma result_of_emit {A : Type} (l : list event) (r : outcome A * state * list event) :
  result_of (emit l r) = result_of r.
Proof. destruct r as [[o s] l']; reflexivity. Qed.

Lemma state_of_emit {A : Type} (l : list event) (r : outcome A * state * list event) :
  state_of (emit l r) = state_of r.
Proof. destruct r as [[o s] l']; reflexivity. Qed.

Lemma events_of_emit {A : Type} (l : list event) (r : outcome A * state * list event) :
  events_of (emit l r) = (l ++ events_of r)%list.
Proof. destruct r as [[o s] l']; reflexivity. Qed.

Lemma world_set_world (s : state) (w : World) : world (set_world s w) = w.
Proof. reflexivity. Qed.

Lemma market_set_world (s : state) (w : World) : market (set_world s w) = market s.
Proof. reflexivity. Qed.

Lemma bind_ret {A B : Type} (a : A) (k : A -> M B) (s : state) :
  bind (ret a) k s = k a s.
Proof. unfold bind, ret; destruct (k a s) as [[o s'] l]; reflexivity. Qed.

Lemma bind_raise {A B : Type} (e : exn) (k : A -> M B) (s : state) :
  bind (raise e) k s = (Raise e, s, []).
Proof. reflexivity. Qed.

Lemma bind_lift_Ok {A B : Type} (a : A) (k : A -> M B) (s : state) :
  bind (lift (Ok a)) k s = k a s.
Proof. apply bind_ret. Qed.

Lemma bind_lift_Err {A B : Type} (e : exn) (k : A -> M B) (s : state) :
  bind (lift (Err e)) k s = (Raise e, s, []).
Proof. reflexivity. Qed.

Lemma bind_lift_ok {A B : Type} (r : result A) (a : A) (k : A -> M B) (s : state) :
  r = Ok a -> bind (lift r) k s = k a s.
Proof. intros ->; apply bind_ret. Qed.

Lemma bind_lift_err {A B : Type} (r : result A) (e : exn) (k : A -> M B) (s : state) :
  r = Err e -> bind (lift r) k s = (Raise e, s, []).
Proof. intros ->; reflexivity. Qed.

Lemma bind_bind {A B D : Type} (m : M A) (k : A -> M B) (h : B -> M D) (s : state) :
  bind (bind m k) h s = bind m (fun a => bind (k a) h) s.
Proof.
  unfold bind; destruct (m s) as [[[a|e|] s1] l1]; try reflexivity.
  destruct (k a s1) as [[[b|e|] s2] l2]; try reflexivity.
  destruct (h b s2) as [[o s3] l3]; now rewrite app_assoc.
Qed.

Lemma bind_account_info {B : Type} (k : value -> M B) (s : state) :
  bind works_account_info k s = k (account_info (world s)) s.
Proof. unfold bind, works_account_info; destruct (k _ s) as [[o s'] l]; reflexivity. Qed.

Lemma bind_time {B : Type} (k : Z -> M B) (s : state) :
  bind time_time k s = k (unix_time (world s)) s.
Proof. unfold bind, time_time; destruct (k _ s) as [[o s'] l]; reflexivity. Qed.

Lemma bind_print {B : Type} (args : list value) (k : unit -> M B) (s : state) :
  bind (print args) k s = emit [Printed args] (k tt s).
Proof. reflexivity. Qed.

Lemma bind_call_return {B : Type} (r : request) (k : value -> M B) (s : state)
    (v : value) (w : World) :
  respond r (world s) = (Return v, w) ->
  bind (call r) k s = emit [Issued r; Completed r (Ok v)] (k v (set_world s w)).
Proof. intros H; unfold bind, call; rewrite H; reflexivity. Qed.

Lemma bind_call_raise {B : Type} (r : request) (k : value -> M B) (s : state)
    (e : exn) (w : World) :
  respond r (world s) = (Raise e, w) ->
  bind (call r) k s = (Raise e, set_world s w, [Issued r; Completed r (Err e)]).
Proof. intros H; unfold bind, call; rewrite H; reflexivity. Qed.

Lemma bind_call_pending {B : Type} (r : request) (k : value -> M B) (s : state)
    (w : World) :
  respond r (world s) = (Pending, w) ->
  bind (call r) k s = (Pending, set_world s w, [Issued r]).
Proof. intros H; unfold bind, call; rewrite H; reflexivity. Qed.

Lemma bind_get_token {B : Type} (k : value -> M B) (s : state) (t : value) :
  access_token (market s) = Some t ->
  bind get_access_token k s = k t s.
Proof.
  intros H; unfold bind, get_access_token; rewrite H.
  destruct (k t s) as [[o s'] l]; reflexivity.
Qed.

Lemma bind_get_token_unset {B : Type} (k : value -> M B) (s : state) :
  access_token (market s) = None ->
  bind get_access_token k s =
  (Raise (Exc AttributeError "'TuttiMarketController' object has no attribute 'access_token'"),
   s, []).
Proof. intros H; unfold bind, get_access_token; rewrite H; reflexivity. Qed.

(** A bind looks at its first computation only through its run. *)
Lemma bind_same_run {A B : Type} (m m' : M A) (k : A -> M B) (s : state) :
  m s = m' s -> bind m k s = bind m' k s.
Proof. intros H; unfold bind; now rewrite H. Qed.

(** The data was built: the request is sent. *)
Lemma duct_call_built (d : side) (event : string) (data : M value) (s : state)
    (v : value) :
  data s = (Return v, s, []) ->
  duct_call d event data s = call (DuctCall d event v) s.
Proof.
  intros H; unfold duct_call, bind; rewrite H.
  destruct (call (DuctCall d event v) s) as [[o s'] l].
  destruct (duct_event d event (world s)); reflexivity.
Qed.

Lemma bind_duct_call_built {B : Type} (d : side) (event : string) (data : M value)
    (k : value -> M B) (s : state) (v : value) :
  data s = (Return v, s, []) ->
  bind (duct_call d event data) k s = bind (call (DuctCall d event v)) k s.
Proof. intros H; apply bind_same_run, duct_call_built, H. Qed.

(** The data could not be built: nothing is sent. *)
Lemma duct_call_unbuilt (d : side) (event : string) (data : M value) (s : state)
    (e : exn) :
  data s = (Raise e, s, []) ->
  duct_call d event data s = (Raise (raised_unsent d event (world s) e), s, []).
Proof.
  intros H; unfold duct_call, raised_unsent, bind; rewrite H.
  destruct (duct_event d event (world s)); reflexivity.
Qed.

Lemma bind_duct_call_unbuilt {B : Type} (d : side) (event : string) (data : M value)
    (k : value -> M B) (s : state) (e : exn) :
  data s = (Raise e, s, []) ->
  bind (duct_call d event data) k s =
  (Raise (raised_unsent d event (world s) e), s, []).
Proof.
  intros H; unfold bind at 1; now rewrite (duct_call_unbuilt d event data s e H).
Qed.

(** On a duct without the entry of the event the exception is the one of
    the reading of the entry also when the data was built, and the state
    stays as it is. *)
Lemma duct_call_without_entry (d : side) (event : string) (data : M value)
    (s : state) (e : exn) (v : value) :
  duct_event d event (world s) = Err e ->
  data s = (Return v, s, []) ->
  result_of (duct_call d event data s) = Raise e /\
  state_of (duct_call d event data s) = s.
Proof.
  intros He Hd; rewrite (duct_call_built _ _ _ _ _ Hd); unfold call.
  rewrite (lookup_first _ _ _ _ _ He); destruct s; split; reflexivity.
Qed.

(** Every run through [duct_call]: it raises with nothing done, or goes on
    as the building of the data followed by the request. *)
Lemma bind_duct_call_cases {B : Type} (d : side) (event : string) (data : M value)
    (k : value -> M B) (s : state) :
  (exists e, bind (duct_call d event data) k s = (Raise e, s, [])) \/
  bind (duct_call d event data) k s =
  bind data (fun v => bind (call (DuctCall d event v)) k) s.
Proof.
  assert (Hgo : duct_call d event data s = bind data (fun v => call (DuctCall d event v)) s ->
                bind (duct_call d event data) k s =
                bind data (fun v => bind (call (DuctCall d event v)) k) s).
  { intros H; rewrite <- bind_bind; apply bind_same_run, H. }
  destruct (duct_event d event (world s)) as [x|e0] eqn:Hev.
  { right; apply Hgo; unfold duct_call; rewrite Hev; reflexivity. }
  destruct (data s) as [[[v|e|] s1] l1] eqn:Hdata.
  - right; apply Hgo; unfold duct_call; rewrite Hev, Hdata; reflexivity.
  - left; exists e0; unfold bind at 1; unfold duct_call; rewrite Hev, Hdata; reflexivity.
  - right; apply Hgo; unfold duct_call; rewrite Hev, Hdata; reflexivity.
Qed.

End Runs.

Lemma str_format_pps_not_market (ppsid : value) :
  str_format Facade.pps_not_market_template [ppsid] 0 =
  Ok ("Platform parameter set ID " ++ q2 ++ py_str ppsid ++ q2 ++ " is not set for market").
Proof. unfold Facade.pps_not_market_template; cbn -[py_str]; reflexivity. Qed.

Lemma str_format_pps_not_defined (ppsid : value) :
  str_format Facade.pps_not_defined_template [ppsid] 0 =
  Err (Exc ValueError "Single '}' encountered in format string").
Proof. unfold Facade.pps_not_defined_template; cbn -[py_str]; reflexivity. Qed.

(** One step of a run: the next bind is resolved with the lemmas above and
    the facts at hand. *)
Ltac run_step0 :=
  first
    [ rewrite world_set_world
    | rewrite market_set_world
    | rewrite bind_account_info
    | rewrite bind_time
    | rewrite bind_print
    | rewrite bind_bind
    | rewrite bind_lift_Ok
    | rewrite bind_lift_Err
    | rewrite bind_raise
    | rewrite bind_ret
    | rewrite str_format_pps_not_market
    | rewrite str_format_pps_not_defined
    | match goal with
      | H : ?r = Ok _ |- context [lift ?r] => rewrite H
      | H : ?r = Err _ |- context [lift ?r] => rewrite H
      | H : truthy ?v = _ |- context [truthy ?v] => rewrite H
      | H : ne_str ?v ?t = _ |- context [ne_str ?v ?t] => rewrite H
      | H : respond ?q' _ = (Return _, _) |- context [bind (call ?q) ?k ?s] =>
          change (bind (call q) k s) with (bind (call q') k s);
          rewrite (bind_call_return q' k s _ _ H)
      | H : respond ?q' _ = (Raise _, _) |- context [bind (call ?q) ?k ?s] =>
          change (bind (call q) k s) with (bind (call q') k s);
          rewrite (bind_call_raise q' k s _ _ H)
      | H : respond ?q' _ = (Pending, _) |- context [bind (call ?q) ?k ?s] =>
          change (bind (call q) k s) with (bind (call q') k s);
          rewrite (bind_call_pending q' k s _ H)
      | H : access_token (market ?s) = Some _ |- context [bind get_access_token ?k ?s'] =>
          rewrite (bind_get_token k s' _ H)
      | H : access_token (market ?s) = None |- context [bind get_access_token ?k ?s'] =>
          rewrite (bind_get_token_unset k s' H)
      end ];
  cbv beta iota.

(** A request through [duct_call]: the data is built first, with the same
    steps. *)
Ltac run_step :=
  first
    [ run_step0
    | match goal with
      | |- context [bind (duct_call ?d ?ev ?data) ?k ?s] =>
          let H := fresh "Hdata" in
          first
            [ eassert (H : data s = (Return _, s, []))
                by (repeat run_step0; reflexivity);
              rewrite (bind_duct_call_built d ev data k s _ H); clear H
            | eassert (H : data s = (Raise _, s, []))
                by (repeat run_step0; reflexivity);
              rewrite (bind_duct_call_unbuilt d ev data k s _ H); clear H ]
      end;
      cbv beta iota ].

Ltac run := repeat run_step.

Section PublishFailures.

Context {C : Collaborators}.

(** C6.  When the answer to AUTOMATION_PARAMETER_SET_GET carries no record,
    [publish_tasks_to_market] raises an [Exception] whose message mentions
    the automation parameter set ID, and the only request of the run is
    that lookup: no nanotask is created. *)
Theorem publish_unknown_aps
    (aps_id sync_id : string) (s : state) (token data : value) (w : World) :
  subscript (account_info (world s)) "access_token" = Ok token ->
  respond (Facade.aps_get_request aps_id token) (world s) = (Return data, w) ->
  no_record data ->
  let r := Facade.publish_tasks_to_market aps_id sync_id s in
  result_of r =
    Raise (Exc Exception
             ("Automation parameter set ID " ++ q2 ++ aps_id ++ q2 ++ " is not defined")) /\
  (forall e, result_of r = Raise e -> mentions aps_id (exc_msg e)) /\
  issued (events_of r) = [Facade.aps_get_request aps_id token].
Proof.
  intros Htoken Hresp Hno r.
  assert (Hr : r = (Raise (Exc Exception (Facade.aps_not_defined aps_id)), set_world s w,
                    [Issued (Facade.aps_get_request aps_id token);
                     Completed (Facade.aps_get_request aps_id token) (Ok data)])).
  { subst r; unfold Facade.publish_tasks_to_market.
    destruct Hno as [Hfalse | (content & Hcontent & Hfalse)].
    - run. reflexivity.
    - destruct (truthy data) eqn:Hdata; run; reflexivity. }
  rewrite Hr; repeat split.
  intros e He; injection He as <-.
  exists ("Automation parameter set ID " ++ q2), (q2 ++ " is not defined"); reflexivity.
Qed.

(** C5.  When the platform parameter set that was fetched has a platform
    other than [market], [publish_tasks_to_market] raises an [Exception]
    whose message names the platform parameter set ID of the APS; the
    requests of the run are the two lookups, no nanotask is created. *)
Theorem publish_rejects_other_platform
    (aps_id sync_id : string) (s : state)
    (token data aps ppsid token' data' pps platform : value) (w1 w2 : World) :
  subscript (account_info (world s)) "access_token" = Ok token ->
  respond (Facade.aps_get_request aps_id token) (world s) = (Return data, w1) ->
  truthy data = true ->
  subscript data "content" = Ok aps ->
  truthy aps = true ->
  subscript aps "platform_parameter_set_id" = Ok ppsid ->
  subscript (account_info w1) "access_token" = Ok token' ->
  respond (Facade.pps_get_request ppsid token') w1 = (Return data', w2) ->
  truthy data' = true ->
  subscript data' "content" = Ok pps ->
  subscript pps "platform" = Ok platform ->
  ne_str platform "market" = true ->
  let r := Facade.publish_tasks_to_market aps_id sync_id s in
  result_of r =
    Raise (Exc Exception
             ("Platform parameter set ID " ++ q2 ++ py_str ppsid ++ q2
              ++ " is not set for market")) /\
  (forall e, result_of r = Raise e -> mentions (py_str ppsid) (exc_msg e)) /\
  issued (events_of r) =
    [Facade.aps_get_request aps_id token; Facade.pps_get_request ppsid token'] /\
  (forall q, In q (issued (events_of r)) -> is_nanotask_creation q = false).
Proof.
  intros Htoken Haps Hdata Hcontent Htruthy Hppsid Htoken' Hpps Hdata' Hcontent'
         Hplatform Hne r.
  assert (Hr : r = (Raise (Exc Exception
                      ("Platform parameter set ID " ++ q2 ++ py_str ppsid ++ q2
                       ++ " is not set for market")),
                    set_world (set_world s w1) w2,
                    [Issued (Facade.aps_get_request aps_id token);
                     Completed (Facade.aps_get_request aps_id token) (Ok data);
                     Issued (Facade.pps_get_request ppsid token');
                     Completed (Facade.pps_get_request ppsid token') (Ok data')])).
  { subst r; unfold Facade.publish_tasks_to_market.
    run. reflexivity. }
  rewrite Hr; repeat split.
  - intros e He; injection He as <-.
    exists ("Platform parameter set ID " ++ q2), (q2 ++ " is not set for market").
    reflexivity.
  - intros q [<- | [<- | []]]; reflexivity.
Qed.

End PublishFailures.

Section ControllerProperties.

Context {C : Collaborators}.

(** [register_job] never assigns an attribute of the controller. *)
Lemma register_job_keeps_controller (jc jp d n p : value) (s : state) :
  market (state_of (Controller.register_job jc jp d n p s)) = market s.
Proof.
  unfold Controller.register_job.
  destruct (access_token (market s)) as [t|] eqn:Ht; run; [|reflexivity].
  match goal with
  | |- context [bind (call ?q) _ _] =>
      destruct (respond q (world s)) as [[v|e|] w] eqn:Hr
  end; run; reflexivity.
Qed.

Lemma sign_out_keeps_controller (s : state) :
  market (state_of (Controller.sign_out s)) = market s.
Proof.
  unfold Controller.sign_out.
  destruct (access_token (market s)) as [t|] eqn:Ht; run; [|reflexivity].
  match goal with
  | |- context [bind (call ?q) _ _] =>
      destruct (respond q (world s)) as [[v|e|] w] eqn:Hr
  end; run; reflexivity.
Qed.

Lemma open_keeps_controller (wsd_url : string) (s : state) :
  market (state_of (Controller.open wsd_url s)) = market s.
Proof.
  unfold Controller.open.
  destruct (respond (DuctOpen Market wsd_url) (world s)) as [[v|e|] w] eqn:Hr.
  - rewrite (bind_call_return _ _ _ _ _ Hr); reflexivity.
  - rewrite (bind_call_raise _ _ _ _ _ Hr); reflexivity.
  - rewrite (bind_call_pending _ _ _ _ Hr); reflexivity.
Qed.

(** [sign_in] assigns [access_token] only on the path on which it returns. *)
Lemma sign_in_assigns_on_return (user_id password lifetime : value) (s : state) :
  (exists v, result_of (Controller.sign_in user_id password lifetime s) = Return v) \/
  market (state_of (Controller.sign_in user_id password lifetime s)) = market s.
Proof.
  unfold Controller.sign_in.
  destruct (py_encode_ascii password) as [encoded|e] eqn:He; run.
  2: { right; reflexivity. }
  match goal with
  | |- context [bind (call ?q) _ _] =>
      destruct (respond q (world s)) as [[data|e|] w] eqn:Hr
  end; run.
  2: { right; reflexivity. }
  2: { right; reflexivity. }
  destruct (subscript data "body") as [body|e] eqn:Hb; run.
  2: { right; reflexivity. }
  destruct (subscript body "access_token") as [token|e] eqn:Ht; run.
  2: { right; reflexivity. }
  left; exists VNone; reflexivity.
Qed.

(** The invariant of [never_signed_in]: the attribute does not exist. *)
Lemma never_signed_in_no_token (s : state) :
  never_signed_in s -> access_token (market s) = None.
Proof.
  induction 1 as [w | s w _ IH | s url _ IH | s jc jp d n p _ IH | s _ IH
                 | s u pw l _ IH Hfail].
  - reflexivity.
  - exact IH.
  - now rewrite open_keeps_controller.
  - now rewrite register_job_keeps_controller.
  - now rewrite sign_out_keeps_controller.
  - destruct (sign_in_assigns_on_return u pw l s) as [[v Hv] | Hkeep].
    + exfalso; exact (Hfail v Hv).
    + now rewrite Hkeep.
Qed.

(** C10, amended.  On a controller on which [sign_in] has never returned,
    [register_job] and [sign_out] raise before any request is issued and
    leave the state as it is.  The entry of the event table is read before
    the [access_token] attribute: where the duct has no entry for the
    event, the exception is the one of that reading; where it has one, it
    is the [AttributeError] of the missing [access_token]. *)
Theorem unsigned_controller_fails_locally (s : state) (jc jp d n p : value) :
  never_signed_in s ->
  Controller.register_job jc jp d n p s =
    (Raise (match duct_event Market "REGISTER_JOB" (world s) with
            | Ok _ => no_attribute_access_token
            | Err e => e
            end), s, []) /\
  Controller.sign_out s =
    (Raise (match duct_event Market "SIGN_OUT" (world s) with
            | Ok _ => no_attribute_access_token
            | Err e => e
            end), s, []).
Proof.
  intros Hs; apply never_signed_in_no_token in Hs.
  split.
  - unfold Controller.register_job; run; reflexivity.
  - unfold Controller.sign_out; run; reflexivity.
Qed.

End ControllerProperties.

(** A controller after a refused [sign_in] and a [sign_out] attempt, on
    ducts whose event tables have their entries. *)
Lemma unsigned_controller_fails_locally_witness :
  let s := state_of (Controller.sign_out
             (state_of (Controller.sign_in (VStr "requester1") (VStr "requester1")
                          (VInt 604800000) (demo_state [Raise demo_error] None)))) in
  Controller.register_job (VStr "jc1") VNone VNone VNone VNone s
    = (Raise no_attribute_access_token, s, []) /\
  Controller.sign_out s = (Raise no_attribute_access_token, s, []).
Proof.
  intros s.
  apply (unsigned_controller_fails_locally (C := demo_world)).
  apply SignOutTried, SignInFailed.
  - apply (Fresh (C := demo_world)).
  - intros v; vm_compute; discriminate.
Defined.

(** A controller that was only constructed, on a duct whose [EVENT] is
    [None] or an empty table: the reading of the entry fails first, and the
    exception is a [TypeError] or a [KeyError], not the [AttributeError]. *)
Lemma fresh_controller_fails_at_lookup :
  never_signed_in (fresh_controller VNone) /\
  Controller.register_job (VStr "jc1") VNone VNone VNone VNone (fresh_controller VNone)
    = (Raise (Exc TypeError "'NoneType' object is not subscriptable"),
       fresh_controller VNone, []) /\
  never_signed_in (fresh_controller (VDict [])) /\
  Controller.sign_out (fresh_controller (VDict []))
    = (Raise (Exc KeyError "'SIGN_OUT'"), fresh_controller (VDict []), []) /\
  result_of (Controller.register_job (VStr "jc1") VNone VNone VNone VNone
               (fresh_controller VNone))
    <> Raise no_attribute_access_token.
Proof.
  split; [apply (Fresh (C := without_events VNone)) |].
  split; [reflexivity |].
  split; [apply (Fresh (C := without_events (VDict []))) |].
  split; [reflexivity | discriminate].
Qed.

Section SignIn.

Context {C : Collaborators}.

(** A run of [Controller.sign_in]: the encoding fails and nothing is sent,
    or the SIGN_IN request is the only request. *)
Lemma controller_sign_in_run (user_id password lifetime : value) (s : state) :
  let r := Controller.sign_in user_id password lifetime s in
  match py_encode_ascii password with
  | Ok encoded =>
      let q := market_sign_in_request user_id encoded lifetime in
      events_of r = [Issued q] \/ exists res, events_of r = [Issued q; Completed q res]
  | Err e => r = (Raise (raised_unsent Market "SIGN_IN" (world s) e), s, [])
  end.
Proof.
  unfold Controller.sign_in, market_sign_in_request.
  destruct (py_encode_ascii password) as [encoded|e]; run; [|reflexivity].
  match goal with
  | |- context [bind (call ?q) _ _] =>
      destruct (respond q (world s)) as [[data|e|] w] eqn:Hr
  end; run.
  - right; exists (Ok data).
    destruct (subscript data "body") as [body|e]; run; [|reflexivity].
    destruct (subscript body "access_token") as [token|e]; run; reflexivity.
  - right; exists (Err e); reflexivity.
  - left; reflexivity.
Qed.

(** The events of [Controller.sign_in]: nothing, or the SIGN_IN request and
    possibly its completion. *)
Lemma controller_sign_in_events (user_id password lifetime : value) (s : state) :
  let l := events_of (Controller.sign_in user_id password lifetime s) in
  l = [] \/
  exists q, is_market_request q = true /\
            (l = [Issued q] \/ exists res, l = [Issued q; Completed q res]).
Proof.
  pose proof (controller_sign_in_run user_id password lifetime s) as H.
  cbv zeta in *.
  destruct (py_encode_ascii password) as [encoded|e].
  - right; exists (market_sign_in_request user_id encoded lifetime).
    split; [reflexivity | exact H].
  - left; now rewrite H.
Qed.

(** A continuation that leaves no event adds none to the run. *)
Lemma events_bind_quiet {A B : Type} (m : M A) (k : A -> M B) (s : state) :
  (forall a s', events_of (k a s') = []) ->
  events_of (bind m k s) = events_of (m s).
Proof.
  intros Hk; unfold bind.
  destruct (m s) as [[[a|e|] s1] l1]; try reflexivity.
  specialize (Hk a s1); destruct (k a s1) as [[o s2] l2].
  unfold events_of in *; simpl in *; subst l2; apply app_nil_r.
Qed.

(** The events of [sign_in_market( **market_params )]. *)
Lemma sign_in_market_events (market_params : list (string * value)) (s : state) :
  let l := events_of
    ((margs <- lift (Facade.bind_sign_in_market market_params);;
      (let '(user_id, password, lifetime) := margs in
       Facade.sign_in_market user_id password lifetime);;
      ret VNone) s) in
  l = [] \/
  exists q, is_market_request q = true /\
            (l = [Issued q] \/ exists res, l = [Issued q; Completed q res]).
Proof.
  destruct (Facade.bind_sign_in_market market_params) as [[[u p] t]|e]; run; [|now left].
  unfold Facade.sign_in_market; run.
  rewrite events_bind_quiet by reflexivity.
  exact (controller_sign_in_events u p t s).
Qed.

(** Where an element stands in a list that starts with [a]. *)
Lemma app_cons_split {A : Type} (l1 l2 rest : list A) (x a : A) :
  (l1 ++ x :: l2)%list = a :: rest ->
  (l1 = [] /\ x = a /\ l2 = rest) \/
  (exists l1', l1 = a :: l1' /\ (l1' ++ x :: l2)%list = rest).
Proof.
  destruct l1 as [|b l1]; simpl; intros H; injection H as Hhead Htail.
  - left; repeat split; assumption.
  - right; exists l1; subst b; split; [reflexivity | assumption].
Qed.

Ltac split_events H :=
  repeat
    (first
       [ apply app_cons_split in H;
         destruct H as [(-> & H & _) | (? & -> & H)]
       | symmetry in H; apply app_cons_not_nil in H; destruct H ]).

(** The four shapes of a run of [sign_in]. *)
Lemma sign_in_shape (works_params market_params : list (string * value)) (s : state) :
  let W := works_sign_in_request works_params in
  let r := Facade.sign_in works_params market_params s in
  events_of r = [] \/
  (exists e, result_of r = Raise e /\ events_of r = [Issued W; Completed W (Err e)]) \/
  events_of r = [Issued W] \/
  (exists v tail,
     events_of r = Issued W :: Completed W (Ok v) :: tail /\
     (tail = [] \/
      exists q, is_market_request q = true /\
                (tail = [Issued q] \/ exists res, tail = [Issued q; Completed q res]))).
Proof.
  intros W r; subst W r; unfold Facade.sign_in, works_sign_in_request.
  unfold Facade.bind_sign_in_works.
  destruct (Facade.kw_refused _ _ _ works_params) as [e|]; run; [now left|].
  unfold Facade.sign_in_works; run.
  match goal with
  | |- context [bind (call ?q) _ _] =>
      destruct (respond q (world s)) as [[v|e|] w] eqn:Hr
  end; run.
  - right; right; right; exists v; eexists; split.
    + rewrite events_of_emit; reflexivity.
    + apply (sign_in_market_events market_params (set_world s w)).
  - right; left; exists e; split; reflexivity.
  - right; right; left; reflexivity.
Qed.

(** C8.  In [sign_in], a request to the marketplace is issued only after
    the sign-in request to the task-management side has been issued and has
    completed by returning; when that request raises, [sign_in] raises the
    same exception and the request to task management is the only one of
    the run. *)
Theorem sign_in_sequential (works_params market_params : list (string * value))
    (s : state) :
  let W := works_sign_in_request works_params in
  let r := Facade.sign_in works_params market_params s in
  (forall l1 q l2,
     events_of r = (l1 ++ Issued q :: l2)%list -> is_market_request q = true ->
     exists v, l1 = [Issued W; Completed W (Ok v)]) /\
  (forall e,
     In (Completed W (Err e)) (events_of r) ->
     result_of r = Raise e /\ issued (events_of r) = [W]).
Proof.
  intros W r.
  assert (HW : is_market_request W = false) by reflexivity.
  destruct (sign_in_shape works_params market_params s)
    as [Hl | [(e & Hres & Hl) | [Hl | (v & tail & Hl & Htail)]]];
    fold W in Hl; fold r in Hl; try fold r in Hres; rewrite Hl; split.
  - intros l1 q l2 H Hq; symmetry in H; split_events H.
  - intros e [].
  - intros l1 q l2 H Hq; symmetry in H; split_events H; try discriminate H.
    injection H as ->; congruence.
  - intros e' [H | [H | []]]; try discriminate H.
    injection H as <-; split; [exact Hres | reflexivity].
  - intros l1 q l2 H Hq; symmetry in H; split_events H; try discriminate H.
    injection H as ->; congruence.
  - intros e' [H | []]; discriminate H.
  - intros l1 q l2 H Hq; symmetry in H.
    apply app_cons_split in H; destruct H as [(-> & H & _) | (l1' & -> & H)].
    { injection H as ->; congruence. }
    apply app_cons_split in H; destruct H as [(-> & H & _) | (l1'' & -> & H)].
    { discriminate H. }
    destruct Htail as [-> | (q' & Hq' & [-> | (res & ->)])].
    + split_events H.
    + apply app_cons_split in H; destruct H as [(-> & H & _) | (l3 & -> & H)].
      * exists v; reflexivity.
      * split_events H.
    + apply app_cons_split in H; destruct H as [(-> & H & _) | (l3 & -> & H)].
      * exists v; reflexivity.
      * split_events H; discriminate H.
  - intros e' [H | [H | H]]; try discriminate H.
    exfalso.
    destruct Htail as [-> | (q' & Hq' & [-> | (res & ->)])].
    + destruct H.
    + destruct H as [H | []]; discriminate H.
    + destruct H as [H | [H | []]]; try discriminate H.
      injection H as <- _; congruence.
Qed.


End SignIn.

(** On a duct whose event table is empty the reading of the entry fails
    before the password is encoded. *)
Example sign_in_reads_entry_first :
  Controller.sign_in (VStr "requester1") (VStr ("caf" ++ String "233"%char EmptyString))
    (VInt 604800000) (fresh_controller (VDict []))
  = (Raise (Exc KeyError "'SIGN_IN'"), fresh_controller (VDict []), []).
Proof. reflexivity. Qed.



Section Watching.

Context {C : Collaborators}.

(** C7, amended.  [watch_responses_for_tasks] registers the handler and
    sends the start-watching request with the APS ID, the cursor (['+'] by
    default) and [exclusive=True]; it returns [None] as soon as that send
    completes, raises what the send raises, and stays suspended exactly
    when the send never completes: the method has no waiting of its own. *)
Theorem watch_returns_with_send
    (aps_id : string) (handler : callable) (last_watch_id : option string)
    (s : state) (v : value) (w1 : World) :
  let cursor := match last_watch_id with Some l => l | None => "+" end in
  let on := ResourceOn "watch_responses_for_automation_parameter_set" handler in
  let send :=
    ResourceCall "watch_responses_for_automation_parameter_set.send" []
      [ ("automation_parameter_set_id", VStr aps_id);
        ("last_watch_id", VStr cursor);
        ("exclusive", VBool true) ] in
  respond on (world s) = (Return v, w1) ->
  let r := Facade.watch_responses_for_tasks aps_id handler last_watch_id s in
  issued (events_of r) = [on; send] /\
  (forall x w2, respond send w1 = (Return x, w2) ->
     r = (Return VNone, set_world s w2,
          [Issued on; Completed on (Ok v); Issued send; Completed send (Ok x)])) /\
  (forall e w2, respond send w1 = (Raise e, w2) -> result_of r = Raise e) /\
  (forall w2, respond send w1 = (Pending, w2) -> result_of r = Pending).
Proof.
  intros cursor on send Hon r; subst r cursor on send.
  unfold Facade.watch_responses_for_tasks, Facade.watch_send_request.
  run.
  match goal with
  | |- context [bind (call ?q) _ _] =>
      destruct (respond q w1) as [[x|e|] w2] eqn:Hsend
  end; run; repeat split; try reflexivity; intros; try discriminate.
  - match goal with H : (_, _) = (_, _) |- _ => injection H as <- <- end.
    reflexivity.
  - match goal with H : (_, _) = (_, _) |- _ => injection H as <- _ end.
    reflexivity.
Qed.

End Watching.

(** A watch on a transport that acknowledges the request at once. *)
Lemma watch_returns_with_send_witness :
  Facade.watch_responses_for_tasks "aps-1" (Callable "on_response") None
    (demo_state [Return VNone; Return (VStr "rid-1")] None)
  = (Return VNone, demo_state [] None,
     [ Issued (watch_on_request (Callable "on_response"));
       Completed (watch_on_request (Callable "on_response")) (Ok VNone);
       Issued (Facade.watch_send_request "aps-1" "+");
       Completed (Facade.watch_send_request "aps-1" "+") (Ok (VStr "rid-1")) ]).
Proof.
  refine (proj1 (proj2 (watch_returns_with_send (C := demo_world)
            "aps-1" (Callable "on_response") None
            (demo_state [Return VNone; Return (VStr "rid-1")] None)
            VNone [Return (VStr "rid-1")] _)) (VStr "rid-1") [] _); reflexivity.
Defined.

(** With the two requests answered, the method is back at its caller and
    has returned [None]; nothing cancelled the subscription. *)
Lemma watch_returns_before_cancellation :
  let r := Facade.watch_responses_for_tasks "aps-1" (Callable "on_response") None
             (demo_state [Return VNone; Return (VStr "rid-1")] None) in
  result_of r = Return VNone /\
  issued (events_of r) =
    [ watch_on_request (Callable "on_response"); Facade.watch_send_request "aps-1" "+" ].
Proof. split; reflexivity. Qed.

Section UnknownPlatformParameterSet.

Context {C : Collaborators}.

(** Whatever the world, a falsy answer to PLATFORM_PARAMETER_SET_GET ends
    the method in the [ValueError] of the template, after the two lookups. *)
Lemma publish_unknown_pps
    (aps_id sync_id : string) (s : state)
    (token data aps ppsid token' data' : value) (w1 w2 : World) :
  subscript (account_info (world s)) "access_token" = Ok token ->
  respond (Facade.aps_get_request aps_id token) (world s) = (Return data, w1) ->
  truthy data = true ->
  subscript data "content" = Ok aps ->
  truthy aps = true ->
  subscript aps "platform_parameter_set_id" = Ok ppsid ->
  subscript (account_info w1) "access_token" = Ok token' ->
  respond (Facade.pps_get_request ppsid token') w1 = (Return data', w2) ->
  truthy data' = false ->
  Facade.publish_tasks_to_market aps_id sync_id s =
  (Raise (Exc ValueError "Single '}' encountered in format string"),
   set_world (set_world s w1) w2,
   [ Issued (Facade.aps_get_request aps_id token);
     Completed (Facade.aps_get_request aps_id token) (Ok data);
     Issued (Facade.pps_get_request ppsid token');
     Completed (Facade.pps_get_request ppsid token') (Ok data') ]).
Proof.
  intros Htoken Haps Hdata Hcontent Hrecord Hppsid Htoken' Hpps Hdata'.
  unfold Facade.publish_tasks_to_market.
  run; reflexivity.
Qed.

End UnknownPlatformParameterSet.

(** C3.  The APS [aps-1] refers to the platform parameter set [pps-1], and
    PLATFORM_PARAMETER_SET_GET answers with no record: the method fails
    before the platform check and before any nanotask is created, but with
    the [ValueError] of the malformed template, whose message does not name
    [pps-1]. *)
Theorem publish_unknown_pps_raises_value_error :
  let r := Facade.publish_tasks_to_market "aps-1" "sync-1"
             (demo_state [Return demo_aps; Return VNone] None) in
  result_of r = Raise (Exc ValueError "Single '}' encountered in format string") /\
  issued (events_of r) =
    [ Facade.aps_get_request "aps-1" (VStr "works-token");
      Facade.pps_get_request (VStr "pps-1") (VStr "works-token") ] /\
  ~ mentions "pps-1" "Single '}' encountered in format string".
Proof.
  split; [reflexivity | split; [reflexivity |]].
  intros (pre & post & H).
  repeat (destruct pre as [|? pre]; simpl in H; [discriminate H | injection H as _ H]).
  destruct pre; discriminate H.
Qed.

(** The same lookup answered with a record whose content is [None]: the
    check of the answer lets it through, and the platform check fails on
    [None]. *)
Lemma publish_empty_pps_raises_type_error :
  let r := Facade.publish_tasks_to_market "aps-1" "sync-1"
             (demo_state [Return demo_aps; Return (VDict [("content", VNone)])] None) in
  result_of r = Raise (Exc TypeError "'NoneType' object is not subscriptable").
Proof. reflexivity. Qed.

(** ** After the validation of [publish_tasks_to_market] *)

Section Validated.

Context {C : Collaborators}.

Lemma try_except_swallow (m : M value) (s : state) :
  try_except m Facade.log_and_swallow s =
  match m s with
  | (Raise e, s1, l1) => (Return VNone, s1, (l1 ++ [Traceback e])%list)
  | r => r
  end.
Proof.
  unfold try_except; destruct (m s) as [[[v|e|] s1] l1]; reflexivity.
Qed.

(** Steps 1 to 3 have passed: both parameter sets were fetched and the
    platform is [market]. *)
Variables (aps_id sync_id : string) (s : state).
Variables (token data aps ppsid token' data' pps platform project : value).
Variables (w1 w2 : World).

Hypothesis Htoken : subscript (account_info (world s)) "access_token" = Ok token.
Hypothesis Haps : respond (Facade.aps_get_request aps_id token) (world s) = (Return data, w1).
Hypothesis Hdata : truthy data = true.
Hypothesis Hcontent : subscript data "content" = Ok aps.
Hypothesis Hrecord : truthy aps = true.
Hypothesis Hppsid : subscript aps "platform_parameter_set_id" = Ok ppsid.
Hypothesis Htoken' : subscript (account_info w1) "access_token" = Ok token'.
Hypothesis Hpps : respond (Facade.pps_get_request ppsid token') w1 = (Return data', w2).
Hypothesis Hdata' : truthy data' = true.
Hypothesis Hcontent' : subscript data' "content" = Ok pps.
Hypothesis Hplatform : subscript pps "platform" = Ok platform.
Hypothesis Hmarket : ne_str platform "market" = false.
Hypothesis Hproject : subscript aps "project_name" = Ok project.

(** C1, amended.  An exception raised by the creation of the nanotask or of
    the nanotask group (steps 5 and 6) is not caught: the method raises it.
    Once the group exists, an exception raised while the job is registered
    and the answer checked (steps 8 and 9) is caught and logged, and the
    method returns [None]; any other end of those steps is the end of the
    method. *)
Theorem publish_swallows_registration_errors :
  let r := Facade.publish_tasks_to_market aps_id sync_id s in
  let time := unix_time w2 in
  let q5 := Facade.create_nanotasks_request project time sync_id in
  (forall e w3, respond q5 w2 = (Raise e, w3) -> result_of r = Raise e) /\
  (forall created nids w3,
     respond q5 w2 = (Return created, w3) ->
     subscript created "nanotask_ids" = Ok nids ->
     let q6 := Facade.create_nanotask_group_request time nids project in
     (forall e w4, respond q6 w3 = (Raise e, w4) -> result_of r = Raise e) /\
     (forall ngid w4,
        respond q6 w3 = (Return ngid, w4) ->
        let suite :=
          Facade.register_job_suite pps (Facade.job_parameter_of ngid aps_id ppsid)
            time ngid {| world := w4; market := market s |} in
        match result_of suite with
        | Raise e =>
            result_of r = Return VNone /\
            exists l, events_of r = (l ++ events_of suite ++ [Traceback e])%list
        | o => result_of r = o
        end)).
Proof.
  cbv zeta; unfold Facade.publish_tasks_to_market.
  run.
  split.
  - intros e w3 H5; run; reflexivity.
  - intros created nids w3 H5 Hnids; run.
    split.
    + intros e w4 H6; run; reflexivity.
    + intros ngid w4 H6; run.
      rewrite try_except_swallow.
      change (set_world (set_world (set_world (set_world s w1) w2) w3) w4)
        with {| world := w4; market := market s |}.
      rewrite !result_of_emit, !events_of_emit.
      destruct (Facade.register_job_suite _ _ _ _ _) as [[[v|e|] s5] l5];
        simpl; try reflexivity.
      split; [reflexivity|].
      exists [ Issued (Facade.aps_get_request aps_id token);
               Completed (Facade.aps_get_request aps_id token) (Ok data);
               Issued (Facade.pps_get_request ppsid token');
               Completed (Facade.pps_get_request ppsid token') (Ok data');
               Issued (Facade.create_nanotasks_request project (unix_time w2) sync_id);
               Completed (Facade.create_nanotasks_request project (unix_time w2) sync_id)
                 (Ok created);
               Printed [VStr "Nanotask IDs:"; nids];
               Issued (Facade.create_nanotask_group_request (unix_time w2) nids project);
               Completed (Facade.create_nanotask_group_request (unix_time w2) nids project)
                 (Ok ngid);
               Printed [VStr "Nanotask Group ID:"; ngid] ].
      reflexivity.
Qed.

(** Steps 4 to 7 have passed as well: the nanotask and its group exist. *)
Variables (created nids ngid : value) (w3 w4 : World).

Hypothesis Hcreated :
  respond (Facade.create_nanotasks_request project (unix_time w2) sync_id) w2
  = (Return created, w3).
Hypothesis Hnids : subscript created "nanotask_ids" = Ok nids.
Hypothesis Hgroup :
  respond (Facade.create_nanotask_group_request (unix_time w2) nids project) w3
  = (Return ngid, w4).

(** The controller is signed in and the PPS has a parameter bag. *)
Variables (bag mtoken : value).

Hypothesis Hbag : subscript pps "parameters" = Ok bag.
Hypothesis Hmtoken : access_token (market s) = Some mtoken.

Section Registered.

(** Steps 8 and 9 pass: the bag has its three parameters and the job is
    registered with success. *)
Variables (job_class_id x_max n_max x_prio n_prio res success jid : value).
Variable (w5 : World).

Hypothesis Hclass : subscript bag "job_class_id" = Ok job_class_id.
Hypothesis Hmax : subscript bag "num_job_assignments_max" = Ok x_max.
Hypothesis Hmax' : Facade.int_or_none x_max = Ok n_max.
Hypothesis Hprio : subscript bag "priorityScore" = Ok x_prio.
Hypothesis Hprio' : Facade.int_or_none x_prio = Ok n_prio.
Hypothesis Hjob :
  respond
    (DuctCall Market "REGISTER_JOB" (VDict
       [ ("access_token", mtoken);
         ("job_class_id", job_class_id);
         ("job_parameter", Facade.job_parameter_of ngid aps_id ppsid);
         ("description", VStr ("created at " ++ string_of_Z (unix_time w2)));
         ("num_job_assignments_max", n_max);
         ("priority_score", n_prio) ])) w4
  = (Return res, w5).
Hypothesis Hsuccess : subscript res "success" = Ok success.
Hypothesis Hsucceeded : truthy success = true.
Hypothesis Hbody : subscript res "body" = Ok jid.

(** C2.  When the nine steps complete and the answer to REGISTER_JOB has a
    true [success], [publish_tasks_to_market] returns the pair of the ID
    that the creation of the nanotask group returned and of the [body] of
    that answer. *)
Theorem publish_returns_group_and_job :
  result_of (Facade.publish_tasks_to_market aps_id sync_id s)
  = Return (VTuple [ngid; jid]).
Proof.
  unfold Facade.publish_tasks_to_market.
  run.
  rewrite try_except_swallow.
  unfold Facade.register_job_suite, Controller.register_job.
  run.
  reflexivity.
Qed.

End Registered.

Section Scenario.

(** The parameter bag of the scenario, the priority score under the key
    that the method reads. *)
Hypothesis Hclass : subscript bag "job_class_id" = Ok (VStr "jc1").
Hypothesis Hmax : subscript bag "num_job_assignments_max" = Ok (VStr EmptyString).
Hypothesis Hprio : subscript bag "priorityScore" = Ok (VStr "5").

(** C4, amended.  With [job_class_id] "jc1", an empty
    [num_job_assignments_max] and "5" under the key [priorityScore] of the
    bag, the job is registered with [num_job_assignments_max] [None] and
    [priority_score] the integer 5: REGISTER_JOB is the fifth and last
    request of the run and carries these fields. *)
Theorem publish_coerces_bag_parameters :
  issued (events_of (Facade.publish_tasks_to_market aps_id sync_id s)) =
    [ Facade.aps_get_request aps_id token;
      Facade.pps_get_request ppsid token';
      Facade.create_nanotasks_request project (unix_time w2) sync_id;
      Facade.create_nanotask_group_request (unix_time w2) nids project;
      DuctCall Market "REGISTER_JOB" (VDict
        [ ("access_token", mtoken);
          ("job_class_id", VStr "jc1");
          ("job_parameter", Facade.job_parameter_of ngid aps_id ppsid);
          ("description", VStr ("created at " ++ string_of_Z (unix_time w2)));
          ("num_job_assignments_max", VNone);
          ("priority_score", VInt 5) ]) ].
Proof.
  assert (Hnone : Facade.int_or_none (VStr EmptyString) = Ok VNone) by reflexivity.
  assert (Hfive : Facade.int_or_none (VStr "5") = Ok (VInt 5)) by reflexivity.
  unfold Facade.publish_tasks_to_market.
  run.
  rewrite try_except_swallow.
  unfold Facade.register_job_suite, Controller.register_job.
  run.
  match goal with
  | |- context [bind (call ?q) _ _] =>
      destruct (respond q w4) as [[res|e|] w5] eqn:Hjob
  end; run; try reflexivity.
  destruct (subscript res "success") as [success|e]; run; [|reflexivity].
  destruct (truthy success); run; [|reflexivity].
  destruct (subscript res "body") as [jid|e]; run; reflexivity.
Qed.

End Scenario.

End Validated.

(** ** The properties on the scenario of the specification *)

(** The lookup of [aps-1] answered with an empty content. *)
Lemma publish_unknown_aps_witness :
  let r := Facade.publish_tasks_to_market "aps-1" "sync-1"
             (demo_state [Return (VDict [("content", VNone)])] None) in
  result_of r =
    Raise (Exc Exception
             ("Automation parameter set ID " ++ q2 ++ "aps-1" ++ q2 ++ " is not defined")) /\
  (forall e, result_of r = Raise e -> mentions "aps-1" (exc_msg e)) /\
  issued (events_of r) = [Facade.aps_get_request "aps-1" (VStr "works-token")].
Proof.
  apply (publish_unknown_aps (C := demo_world) "aps-1" "sync-1"
           (demo_state [Return (VDict [("content", VNone)])] None)
           (VStr "works-token") (VDict [("content", VNone)]) []).
  - reflexivity.
  - reflexivity.
  - right; exists VNone; split; reflexivity.
Defined.

(** [pps-1] is a parameter set of another platform. *)
Lemma publish_rejects_other_platform_witness :
  let r := Facade.publish_tasks_to_market "aps-1" "sync-1"
             (demo_state [Return demo_aps; Return (demo_pps "crowd" "priorityScore")]
                None) in
  result_of r =
    Raise (Exc Exception
             ("Platform parameter set ID " ++ q2 ++ "pps-1" ++ q2
              ++ " is not set for market")) /\
  (forall e, result_of r = Raise e -> mentions "pps-1" (exc_msg e)) /\
  issued (events_of r) =
    [ Facade.aps_get_request "aps-1" (VStr "works-token");
      Facade.pps_get_request (VStr "pps-1") (VStr "works-token") ] /\
  (forall q, In q (issued (events_of r)) -> is_nanotask_creation q = false).
Proof.
  apply (publish_rejects_other_platform (C := demo_world) "aps-1" "sync-1"
           (demo_state [Return demo_aps; Return (demo_pps "crowd" "priorityScore")] None)
           (VStr "works-token") demo_aps demo_aps_record (VStr "pps-1")
           (VStr "works-token") (demo_pps "crowd" "priorityScore")
           (demo_pps_record "crowd" "priorityScore") (VStr "crowd")
           [Return (demo_pps "crowd" "priorityScore")] []);
    reflexivity.
Defined.

(** The creation of the nanotask is refused: the exception reaches the
    caller, nothing is logged and the method does not return [None]. *)
Lemma publish_propagates_nanotask_error :
  let r := Facade.publish_tasks_to_market "aps-1" "sync-1"
             (demo_state
                [Return demo_aps; Return (demo_pps "market" "priorityScore");
                 Raise demo_error]
                (Some (VStr "market-token"))) in
  result_of r = Raise demo_error /\
  result_of r <> Return VNone /\
  (forall e, ~ In (Traceback e) (events_of r)).
Proof.
  split; [reflexivity | split; [discriminate |]].
  intros e H; vm_compute in H.
  repeat (destruct H as [H | H]; [discriminate H |]); exact H.
Qed.

(** The registration of the job is refused: the exception is logged and the
    method returns [None]. *)
Lemma publish_swallows_registration_errors_witness :
  let r := Facade.publish_tasks_to_market "aps-1" "sync-1"
             (demo_state
                [Return demo_aps; Return (demo_pps "market" "priorityScore");
                 Return demo_nanotasks; Return (VStr "ng-1"); Raise demo_error]
                (Some (VStr "market-token"))) in
  result_of r = Return VNone.
Proof.
  pose proof
    (publish_swallows_registration_errors (C := demo_world) "aps-1" "sync-1"
       (demo_state
          [Return demo_aps; Return (demo_pps "market" "priorityScore");
           Return demo_nanotasks; Return (VStr "ng-1"); Raise demo_error]
          (Some (VStr "market-token")))
       (VStr "works-token") demo_aps demo_aps_record (VStr "pps-1")
       (VStr "works-token") (demo_pps "market" "priorityScore")
       (demo_pps_record "market" "priorityScore") (VStr "market") (VStr "neji")
       [Return (demo_pps "market" "priorityScore");
        Return demo_nanotasks; Return (VStr "ng-1"); Raise demo_error]
       [Return demo_nanotasks; Return (VStr "ng-1"); Raise demo_error]
       eq_refl eq_refl eq_refl eq_refl eq_refl eq_refl eq_refl eq_refl eq_refl
       eq_refl eq_refl eq_refl eq_refl) as H.
  cbv zeta in H.
  destruct H as [_ H].
  specialize (H demo_nanotasks (VList [VStr "nt-1"])
                [Return (VStr "ng-1"); Raise demo_error] eq_refl eq_refl).
  destruct H as [_ H].
  specialize (H (VStr "ng-1") [Raise demo_error] eq_refl).
  exact (proj1 H).
Defined.

(** The scenario with every step answered. *)
Lemma publish_returns_group_and_job_witness :
  result_of
    (Facade.publish_tasks_to_market "aps-1" "sync-1"
       (demo_state
          [Return demo_aps; Return (demo_pps "market" "priorityScore");
           Return demo_nanotasks; Return (VStr "ng-1"); Return (demo_job true)]
          (Some (VStr "market-token"))))
  = Return (VTuple [VStr "ng-1"; VStr "job-9"]).
Proof.
  apply (publish_returns_group_and_job (C := demo_world) "aps-1" "sync-1"
           (demo_state
              [Return demo_aps; Return (demo_pps "market" "priorityScore");
               Return demo_nanotasks; Return (VStr "ng-1"); Return (demo_job true)]
              (Some (VStr "market-token")))
           (VStr "works-token") demo_aps demo_aps_record (VStr "pps-1")
           (VStr "works-token") (demo_pps "market" "priorityScore")
           (demo_pps_record "market" "priorityScore") (VStr "market") (VStr "neji")
           [Return (demo_pps "market" "priorityScore");
            Return demo_nanotasks; Return (VStr "ng-1"); Return (demo_job true)]
           [Return demo_nanotasks; Return (VStr "ng-1"); Return (demo_job true)]
           eq_refl eq_refl eq_refl eq_refl eq_refl eq_refl eq_refl eq_refl eq_refl
           eq_refl eq_refl eq_refl eq_refl
           demo_nanotasks (VList [VStr "nt-1"]) (VStr "ng-1")
           [Return (VStr "ng-1"); Return (demo_job true)] [Return (demo_job true)]
           eq_refl eq_refl eq_refl
           (demo_bag "priorityScore") (VStr "market-token") eq_refl eq_refl
           (VStr "jc1") (VStr EmptyString) VNone (VStr "5") (VInt 5)
           (demo_job true) (VBool true) (VStr "job-9") []);
    reflexivity.
Defined.

(** The scenario, the priority score under [priorityScore]. *)
Lemma publish_coerces_bag_parameters_witness :
  issued (events_of
    (Facade.publish_tasks_to_market "aps-1" "sync-1"
       (demo_state
          [Return demo_aps; Return (demo_pps "market" "priorityScore");
           Return demo_nanotasks; Return (VStr "ng-1"); Return (demo_job true)]
          (Some (VStr "market-token"))))) =
    [ Facade.aps_get_request "aps-1" (VStr "works-token");
      Facade.pps_get_request (VStr "pps-1") (VStr "works-token");
      Facade.create_nanotasks_request (VStr "neji") 1700000000 "sync-1";
      Facade.create_nanotask_group_request 1700000000 (VList [VStr "nt-1"]) (VStr "neji");
      DuctCall Market "REGISTER_JOB" (VDict
        [ ("access_token", VStr "market-token");
          ("job_class_id", VStr "jc1");
          ("job_parameter",
           Facade.job_parameter_of (VStr "ng-1") "aps-1" (VStr "pps-1"));
          ("description", VStr "created at 1700000000");
          ("num_job_assignments_max", VNone);
          ("priority_score", VInt 5) ]) ].
Proof.
  apply (publish_coerces_bag_parameters (C := demo_world) "aps-1" "sync-1"
           (demo_state
              [Return demo_aps; Return (demo_pps "market" "priorityScore");
               Return demo_nanotasks; Return (VStr "ng-1"); Return (demo_job true)]
              (Some (VStr "market-token")))
           (VStr "works-token") demo_aps demo_aps_record (VStr "pps-1")
           (VStr "works-token") (demo_pps "market" "priorityScore")
           (demo_pps_record "market" "priorityScore") (VStr "market") (VStr "neji")
           [Return (demo_pps "market" "priorityScore");
            Return demo_nanotasks; Return (VStr "ng-1"); Return (demo_job true)]
           [Return demo_nanotasks; Return (VStr "ng-1"); Return (demo_job true)]
           eq_refl eq_refl eq_refl eq_refl eq_refl eq_refl eq_refl eq_refl eq_refl
           eq_refl eq_refl eq_refl eq_refl
           demo_nanotasks (VList [VStr "nt-1"]) (VStr "ng-1")
           [Return (VStr "ng-1"); Return (demo_job true)] [Return (demo_job true)]
           eq_refl eq_refl eq_refl
           (demo_bag "priorityScore") (VStr "market-token") eq_refl eq_refl);
    reflexivity.
Defined.

(** The scenario as the specification words it, the priority score under
    [priority_score]: the method returns [None] after four requests, and
    no job is registered. *)
Lemma publish_misses_priority_score :
  let r := Facade.publish_tasks_to_market "aps-1" "sync-1"
             (demo_state
                [Return demo_aps; Return (demo_pps "market" "priority_score");
                 Return demo_nanotasks; Return (VStr "ng-1"); Return (demo_job true)]
                (Some (VStr "market-token"))) in
  result_of r = Return VNone /\
  issued (events_of r) =
    [ Facade.aps_get_request "aps-1" (VStr "works-token");
      Facade.pps_get_request (VStr "pps-1") (VStr "works-token");
      Facade.create_nanotasks_request (VStr "neji") 1700000000 "sync-1";
      Facade.create_nanotask_group_request 1700000000 (VList [VStr "nt-1"])
        (VStr "neji") ] /\
  In (Traceback (Exc KeyError "'priorityScore'")) (events_of r).
Proof.
  split; [reflexivity | split; [reflexivity |]].
  vm_compute; tauto.
Qed.

(** * Further properties *)

(** ** Connections *)

Lemma last_char_app_slash (h : string) : last_char (h ++ "/") = Some "/"%char.
Proof.
  induction h as [|c h IH]; [reflexivity|].
  simpl; destruct (h ++ "/") eqn:E; [destruct h; discriminate E | exact IH].
Qed.

Lemma drop_last_app_slash (h : string) : drop_last (h ++ "/") = h.
Proof.
  induction h as [|c h IH]; [reflexivity|].
  simpl; destruct (h ++ "/") eqn:E; [destruct h; discriminate E|].
  now rewrite IH.
Qed.

Lemma strip_trailing_slash_app (h : string) : strip_trailing_slash (h ++ "/") = Ok h.
Proof.
  unfold strip_trailing_slash; rewrite last_char_app_slash; simpl.
  now rewrite drop_last_app_slash.
Qed.

Lemma strip_trailing_slash_other (h : string) (c : ascii) :
  last_char h = Some c -> c <> "/"%char -> strip_trailing_slash h = Ok h.
Proof.
  intros Hc Hne; unfold strip_trailing_slash; rewrite Hc.
  destruct (Ascii.eqb_spec c "/"); [contradiction | reflexivity].
Qed.

Section Opening.

Context {C : Collaborators} {T : Connections}.

Lemma bind_install {B : Type} (d : side) (k : unit -> M B) (s : state) :
  bind (Connection.install_listener d) k s = k tt (set_world s (listen d (world s))).
Proof.
  unfold bind, Connection.install_listener.
  destruct (k tt _) as [[o s'] l]; reflexivity.
Qed.

Lemma bind_sleep {B : Type} (k : unit -> M B) (s : state) :
  bind Connection.sleep_grace k s = k tt (set_world s (grace (world s))).
Proof.
  unfold bind, Connection.sleep_grace.
  destruct (k tt _) as [[o s'] l]; reflexivity.
Qed.

Lemma bind_heard {B : Type} (d : side) (k : list ConnectionEvent -> M B) (s : state) :
  bind (Connection.errors_heard d) k s = k (heard d (world s)) s.
Proof.
  unfold bind, Connection.errors_heard.
  destruct (k _ s) as [[o s'] l]; reflexivity.
Qed.

(** The run of [open_works] on a host that the normalisation turns into
    [h]. *)
Lemma open_works_run (host h : string) (s : state) :
  strip_trailing_slash host = Ok h ->
  let q := DuctOpen Works (h ++ "/ducts/wsd") in
  let w0 := listen Works (world s) in
  Connection.open_works host s =
  match respond q w0 with
  | (Return v, w) =>
      (match heard Works (grace w) with
       | e :: _ => Return (Connection.NejiFinderTuttiClientConnectionError "Tutti.works" e)
       | [] => Return Connection.Opened
       end,
       {| world := grace w; market := market s |},
       [Issued q; Completed q (Ok v)])
  | (Raise e, w) => (Raise e, {| world := w; market := market s |},
                     [Issued q; Completed q (Err e)])
  | (Pending, w) => (Pending, {| world := w; market := market s |}, [Issued q])
  end.
Proof.
  intros Hh q w0; subst q w0; unfold Connection.open_works.
  rewrite Hh, bind_lift_Ok, bind_install.
  destruct (respond _ (listen Works (world s))) as [[v|e|] w] eqn:Hr.
  - rewrite (bind_call_return _ _ (set_world s (listen Works (world s))) _ _ Hr).
    rewrite bind_sleep, bind_heard; cbn [world set_world].
    destruct (heard Works (grace w)); reflexivity.
  - rewrite (bind_call_raise _ _ (set_world s (listen Works (world s))) _ _ Hr).
    reflexivity.
  - rewrite (bind_call_pending _ _ (set_world s (listen Works (world s))) _ Hr).
    reflexivity.
Qed.

Lemma open_market_run (host h : string) (s : state) :
  strip_trailing_slash host = Ok h ->
  let q := DuctOpen Market (h ++ "/ducts/wsd") in
  let w0 := listen Market (world s) in
  Connection.open_market host s =
  match respond q w0 with
  | (Return v, w) =>
      (match heard Market (grace w) with
       | e :: _ => Return (Connection.NejiFinderTuttiClientConnectionError "Tutti.market" e)
       | [] => Return Connection.Opened
       end,
       {| world := grace w; market := market s |},
       [Issued q; Completed q (Ok v)])
  | (Raise e, w) => (Raise e, {| world := w; market := market s |},
                     [Issued q; Completed q (Err e)])
  | (Pending, w) => (Pending, {| world := w; market := market s |}, [Issued q])
  end.
Proof.
  intros Hh q w0; subst q w0; unfold Connection.open_market, Controller.open.
  rewrite Hh, bind_lift_Ok, bind_install, bind_bind.
  destruct (respond _ (listen Market (world s))) as [[v|e|] w] eqn:Hr.
  - rewrite (bind_call_return _ _ (set_world s (listen Market (world s))) _ _ Hr).
    rewrite bind_ret, bind_sleep, bind_heard; cbn [world set_world].
    destruct (heard Market (grace w)); reflexivity.
  - rewrite (bind_call_raise _ _ (set_world s (listen Market (world s))) _ _ Hr).
    reflexivity.
  - rewrite (bind_call_pending _ _ (set_world s (listen Market (world s))) _ Hr).
    reflexivity.
Qed.

(** X1.  A host written with a trailing slash is opened at the host
    without that slash followed by [/ducts/wsd]; exactly one slash is
    removed, so a host that ends in two slashes keeps one. *)
Theorem open_strips_one_slash (h : string) (s : state) :
  issued (events_of (Connection.open_works (h ++ "/") s))
    = [DuctOpen Works (h ++ "/ducts/wsd")] /\
  issued (events_of (Connection.open_market (h ++ "/") s))
    = [DuctOpen Market (h ++ "/ducts/wsd")].
Proof.
  split.
  - rewrite (open_works_run _ h s (strip_trailing_slash_app h)); cbv zeta.
    destruct (respond _ _) as [[v|e|] w]; reflexivity.
  - rewrite (open_market_run _ h s (strip_trailing_slash_app h)); cbv zeta.
    destruct (respond _ _) as [[v|e|] w]; reflexivity.
Qed.

(** X2.  For a host that is not empty and does not end in a slash, opening
    the host and opening the host followed by a slash are the same run:
    same request, same result, same final state. *)
Theorem open_same_with_or_without_slash (h : string) (c : ascii) (s : state) :
  last_char h = Some c ->
  c <> "/"%char ->
  Connection.open_works (h ++ "/") s = Connection.open_works h s /\
  Connection.open_market (h ++ "/") s = Connection.open_market h s.
Proof.
  intros Hc Hne; split.
  - rewrite (open_works_run _ h s (strip_trailing_slash_app h)).
    now rewrite (open_works_run _ h s (strip_trailing_slash_other h c Hc Hne)).
  - rewrite (open_market_run _ h s (strip_trailing_slash_app h)).
    now rewrite (open_market_run _ h s (strip_trailing_slash_other h c Hc Hne)).
Qed.

(** X3.  Once the open request has returned, [open_works] raises the
    connection error exactly when its listener has heard an event by the
    end of the grace period; the error is tagged [Tutti.works] and carries
    the first event heard.  Events heard on the marketplace duct play no
    part.  [open_market] does the same with [Tutti.market] and its own
    duct. *)
Theorem open_reports_first_error_heard
    (host h : string) (s : state) (v : value) (w : World) (d : side) :
  strip_trailing_slash host = Ok h ->
  respond (DuctOpen d (h ++ "/ducts/wsd")) (listen d (world s)) = (Return v, w) ->
  let r := match d with
           | Works => Connection.open_works host s
           | Market => Connection.open_market host s
           end in
  let tag := match d with Works => "Tutti.works" | Market => "Tutti.market" end in
  (heard d (grace w) = [] -> result_of r = Return Connection.Opened) /\
  (forall e rest,
     heard d (grace w) = e :: rest ->
     result_of r = Return (Connection.NejiFinderTuttiClientConnectionError tag e)).
Proof.
  intros Hh Hr r tag; subst r tag.
  destruct d.
  - rewrite (open_works_run _ h s Hh); cbv zeta; rewrite Hr.
    split; [intros -> | intros e rest ->]; reflexivity.
  - rewrite (open_market_run _ h s Hh); cbv zeta; rewrite Hr.
    split; [intros -> | intros e rest ->]; reflexivity.
Qed.

(** X4.  An exception of the open request itself reaches the caller as it
    is: it is not turned into the connection error, whatever the listener
    has heard, and the grace period is not waited for. *)
Theorem open_failure_is_not_wrapped
    (host h : string) (s : state) (e : exn) (w : World) (d : side) :
  strip_trailing_slash host = Ok h ->
  respond (DuctOpen d (h ++ "/ducts/wsd")) (listen d (world s)) = (Raise e, w) ->
  let r := match d with
           | Works => Connection.open_works host s
           | Market => Connection.open_market host s
           end in
  result_of r = Raise e /\ world (state_of r) = w.
Proof.
  intros Hh Hr r; subst r.
  destruct d.
  - rewrite (open_works_run _ h s Hh); cbv zeta; rewrite Hr; split; reflexivity.
  - rewrite (open_market_run _ h s Hh); cbv zeta; rewrite Hr; split; reflexivity.
Qed.

(** X5.  [close] never returns: when the Tutti.works client has closed,
    [self.market.close()] raises the [AttributeError] of a method that the
    controller does not have, and no request reaches the marketplace duct. *)
Theorem close_never_returns (s : state) :
  (forall v, result_of (Connection.close s) <> Return v) /\
  events_of (Connection.close s) = [] /\
  (forall v w,
     works_close (world s) = (Return v, w) ->
     Connection.close s =
     (Raise (Exc AttributeError "'TuttiMarketController' object has no attribute 'close'"),
      set_world s w, [])).
Proof.
  unfold Connection.close, Connection.close_works, Connection.close_market,
    Connection.tutti_close, bind, ret, raise, result_of, events_of.
  destruct (works_close (world s)) as [[v|e|] w]; simpl;
    (split; [intros v'; discriminate | split; [reflexivity |]]);
    intros v' w' H; try discriminate H.
  now injection H as _ <-.
Qed.

End Opening.

(** The two spellings of the development host. *)
Lemma open_same_with_or_without_slash_witness :
  let T := demo_connections (fun _ => []) (Return VNone) in
  let s := demo_state [Return VNone] None in
  Connection.open_works (T := T) "https://dev.neji-finder.tutti.works/" s
    = Connection.open_works (T := T) "https://dev.neji-finder.tutti.works" s /\
  Connection.open_market (T := T) "https://dev.neji-finder.tutti.works/" s
    = Connection.open_market (T := T) "https://dev.neji-finder.tutti.works" s.
Proof.
  intros T s.
  apply (open_same_with_or_without_slash (T := T)
           "https://dev.neji-finder.tutti.works" "s"%char s).
  - reflexivity.
  - discriminate.
Defined.

(** The marketplace duct reports a refused connection during the grace
    period. *)
Lemma open_reports_first_error_heard_witness :
  let T := demo_connections
             (fun d => match d with Works => [] | Market => ["refused"; "closed"] end)
             (Return VNone) in
  let s := demo_state [Return VNone] None in
  result_of (Connection.open_market (T := T) "https://dev.neji-finder.tutti.market/" s)
    = Return (Connection.NejiFinderTuttiClientConnectionError (T := T)
                "Tutti.market" "refused").
Proof.
  intros T s.
  refine (proj2 (open_reports_first_error_heard (T := T)
            "https://dev.neji-finder.tutti.market/" "https://dev.neji-finder.tutti.market"
            s VNone [] Market _ _) "refused" ["closed"] _); reflexivity.
Defined.

(** The open request is refused while the listener has heard an event. *)
Lemma open_failure_is_not_wrapped_witness :
  let T := demo_connections (fun _ => ["refused"]) (Return VNone) in
  let s := demo_state [Raise demo_error] None in
  result_of (Connection.open_works (T := T) "https://dev.neji-finder.tutti.works" s)
    = Raise demo_error.
Proof.
  intros T s.
  refine (proj1 (open_failure_is_not_wrapped (T := T)
            "https://dev.neji-finder.tutti.works" "https://dev.neji-finder.tutti.works"
            s demo_error [] Works _ _)); reflexivity.
Defined.

(** ** The session token of the controller *)

Section Sessions.

Context {C : Collaborators}.


Ltac split_log H :=
  repeat
    (first
       [ apply app_cons_split in H;
         destruct H as [(-> & H & _) | (? & -> & H)]
       | symmetry in H; apply app_cons_not_nil in H; destruct H ]).

(** The shapes of a run of the facade's [sign_out]. *)
Lemma sign_out_shape (s : state) :
  let r := Facade.sign_out s in
  let W := ResourceCall "sign_out" [] [] in
  (access_token (market s) = None /\
   r = (Raise (raised_unsent Market "SIGN_OUT" (world s) no_attribute_access_token),
        s, [])) \/
  exists token,
    access_token (market s) = Some token /\
    let Q := sign_out_request token in
    ((exists e, result_of r = Raise e /\ events_of r = [Issued Q; Completed Q (Err e)]) \/
     events_of r = [Issued Q] \/
     (exists v, events_of r = [Issued Q; Completed Q (Ok v); Issued W]) \/
     (exists v res,
        events_of r = [Issued Q; Completed Q (Ok v); Issued W; Completed W res])).
Proof.
  cbv zeta; unfold Facade.sign_out, Facade.sign_out_market, Facade.sign_out_works,
    Controller.sign_out, sign_out_request.
  destruct (access_token (market s)) as [token|] eqn:Ht.
  - right; exists token; split; [reflexivity|].
    run.
    match goal with
    | |- context [bind (call ?q) _ _] =>
        destruct (respond q (world s)) as [[v|e|] w] eqn:Hr
    end; run.
    + match goal with
      | |- context [bind (call ?q) _ _] =>
          destruct (respond q w) as [[v'|e'|] w'] eqn:Hr'
      end; run.
      * right; right; right; exists v, (Ok v'); reflexivity.
      * right; right; right; exists v, (Err e'); reflexivity.
      * right; right; left; exists v; reflexivity.
    + left; exists e; split; reflexivity.
    + right; left; reflexivity.
  - left; split; [reflexivity|].
    run. reflexivity.
Qed.

(** X6.  The facade's [sign_out] signs out of the marketplace first: the
    sign-out request to Tutti.works is issued only after SIGN_OUT has been
    sent with the stored token and has returned.  On a controller that
    holds no token it raises and issues no request at all, so the
    Tutti.works session is not signed out either; the exception is the one
    of the reading of the entry SIGN_OUT where the event table of the duct
    lacks it, and the [AttributeError] of the missing token otherwise. *)
Theorem sign_out_market_first (s : state) :
  let r := Facade.sign_out s in
  let W := ResourceCall "sign_out" [] [] in
  (forall l1 l2,
     events_of r = (l1 ++ Issued W :: l2)%list ->
     exists token v,
       access_token (market s) = Some token /\
       l1 = [Issued (sign_out_request token);
             Completed (sign_out_request token) (Ok v)]) /\
  (access_token (market s) = None ->
   r = (Raise (match duct_event Market "SIGN_OUT" (world s) with
               | Ok _ => no_attribute_access_token
               | Err e => e
               end), s, [])).
Proof.
  intros r W.
  destruct (sign_out_shape s)
    as [[Hnone Hr] | (token & Ht & [(e & _ & Hl) | [Hl | [(v & Hl) | (v & res & Hl)]]])];
    try fold r in Hr; try fold r in Hl; split.
  - rewrite Hr; intros l1 l2 H; symmetry in H; split_log H.
  - intros _; exact Hr.
  - rewrite Hl; intros l1 l2 H; symmetry in H; split_log H; discriminate H.
  - intros H; congruence.
  - rewrite Hl; intros l1 l2 H; symmetry in H; split_log H; discriminate H.
  - intros H; congruence.
  - rewrite Hl; intros l1 l2 H; symmetry in H.
    apply app_cons_split in H; destruct H as [(-> & H & _) | (l1' & -> & H)];
      [discriminate H|].
    apply app_cons_split in H; destruct H as [(-> & H & _) | (l1'' & -> & H)];
      [discriminate H|].
    apply app_cons_split in H; destruct H as [(-> & H & _) | (l3 & -> & H)].
    + exists token, v; split; [exact Ht | reflexivity].
    + split_log H.
  - intros H; congruence.
  - rewrite Hl; intros l1 l2 H; symmetry in H.
    apply app_cons_split in H; destruct H as [(-> & H & _) | (l1' & -> & H)];
      [discriminate H|].
    apply app_cons_split in H; destruct H as [(-> & H & _) | (l1'' & -> & H)];
      [discriminate H|].
    apply app_cons_split in H; destruct H as [(-> & H & _) | (l3 & -> & H)].
    + exists token, v; split; [exact Ht | reflexivity].
    + split_log H; discriminate H.
  - intros H; congruence.
Qed.

(** A computation built from parts that keep the controller keeps it. *)
Lemma keeps_ret {A : Type} (a : A) : keeps_controller (ret a).
Proof. intros s; reflexivity. Qed.

Lemma keeps_raise {A : Type} (e : exn) : keeps_controller (@raise _ A e).
Proof. intros s; reflexivity. Qed.

Lemma keeps_lift {A : Type} (r : result A) : keeps_controller (lift r).
Proof. destruct r; intros s; reflexivity. Qed.

Lemma keeps_call (q : request) : keeps_controller (call q).
Proof.
  intros s; unfold call; destruct (respond q (world s)) as [[v|e|] w]; reflexivity.
Qed.

Lemma keeps_print (args : list value) : keeps_controller (print args).
Proof. intros s; reflexivity. Qed.

Lemma keeps_print_exc (e : exn) : keeps_controller (print_exc e).
Proof. intros s; reflexivity. Qed.

Lemma keeps_account_info : keeps_controller works_account_info.
Proof. intros s; reflexivity. Qed.

Lemma keeps_time : keeps_controller time_time.
Proof. intros s; reflexivity. Qed.

Lemma keeps_get_access_token : keeps_controller get_access_token.
Proof.
  intros s; unfold get_access_token; destruct (access_token (market s)); reflexivity.
Qed.

Lemma keeps_duct_call (d : side) (event : string) (data : M value) :
  keeps_controller data -> keeps_controller (duct_call d event data).
Proof.
  intros Hd s; unfold duct_call.
  assert (Hb : market (state_of (bind data (fun v => call (DuctCall d event v)) s))
               = market s).
  { unfold bind; specialize (Hd s); destruct (data s) as [[[v|e|] s1] l1];
      try exact Hd.
    pose proof (keeps_call (DuctCall d event v) s1) as Hc.
    destruct (call (DuctCall d event v) s1) as [[o s2] l2].
    unfold state_of in *; simpl in *; congruence. }
  destruct (duct_event d event (world s)); [exact Hb|].
  destruct (data s) as [[[v|e'|] s1] l1]; first [exact Hb | reflexivity].
Qed.

Lemma keeps_bind {A B : Type} (m : M A) (k : A -> M B) :
  keeps_controller m -> (forall a, keeps_controller (k a)) ->
  keeps_controller (bind m k).
Proof.
  intros Hm Hk s; unfold bind.
  specialize (Hm s); destruct (m s) as [[[a|e|] s1] l1]; try exact Hm.
  specialize (Hk a s1); destruct (k a s1) as [[o s2] l2].
  unfold state_of in *; simpl in *; congruence.
Qed.

Lemma keeps_try_except {A : Type} (m : M A) (h : exn -> M A) :
  keeps_controller m -> (forall e, keeps_controller (h e)) ->
  keeps_controller (try_except m h).
Proof.
  intros Hm Hh s; unfold try_except.
  specialize (Hm s); destruct (m s) as [[[a|e|] s1] l1]; try exact Hm.
  specialize (Hh e s1); destruct (h e s1) as [[o s2] l2].
  unfold state_of in *; simpl in *; congruence.
Qed.

Ltac keeps :=
  repeat
    first
      [ apply keeps_ret | apply keeps_raise | apply keeps_lift | apply keeps_call
      | apply keeps_print | apply keeps_print_exc | apply keeps_account_info
      | apply keeps_time | apply keeps_get_access_token
      | apply keeps_duct_call
      | apply keeps_bind; [|intros]
      | apply keeps_try_except; [|intros]
      | match goal with
        | |- keeps_controller (if ?b then _ else _) => destruct b
        | |- keeps_controller (match ?x with _ => _ end) => destruct x
        end ].

(** X7.  Only [sign_in] assigns the token of the controller: whatever the
    collaborators answer and however the method ends,
    [publish_tasks_to_market], [watch_responses_for_tasks], the facade's
    [sign_out] and [sign_in_works], and the controller's [register_job],
    [sign_out] and [open] leave the attributes of the controller as they
    found them. *)
Theorem only_sign_in_assigns_token :
  (forall aps_id sync_id, keeps_controller (Facade.publish_tasks_to_market aps_id sync_id)) /\
  (forall aps_id handler cursor,
     keeps_controller (Facade.watch_responses_for_tasks aps_id handler cursor)) /\
  keeps_controller Facade.sign_out /\
  (forall u p t kw, keeps_controller (Facade.sign_in_works u p t kw)) /\
  (forall jc jp d n p, keeps_controller (Controller.register_job jc jp d n p)) /\
  keeps_controller Controller.sign_out /\
  (forall url, keeps_controller (Controller.open url)).
Proof.
  repeat split; intros;
    unfold Facade.publish_tasks_to_market, Facade.register_job_suite,
      Facade.log_and_swallow, Facade.watch_responses_for_tasks, Facade.sign_out,
      Facade.sign_out_market, Facade.sign_out_works, Facade.sign_in_works,
      Controller.register_job, Controller.sign_out, Controller.open;
    keeps.
Qed.



(** X10.  A [sign_in] that does not return, because the password does not
    encode, the request fails or is never answered, or the answer has no
    [body] with an [access_token], leaves the controller as it was: a token
    of an earlier sign-in stays in place. *)
Theorem failed_sign_in_keeps_token (user_id password lifetime : value) (s : state) :
  (forall v, result_of (Controller.sign_in user_id password lifetime s) <> Return v) ->
  market (state_of (Controller.sign_in user_id password lifetime s)) = market s.
Proof.
  intros Hfail.
  destruct (sign_in_assigns_on_return user_id password lifetime s) as [[v Hv] | H].
  - exfalso; exact (Hfail v Hv).
  - exact H.
Qed.

Lemma bytes_of_word_length (n : nat) (x : Z) :
  List.length (SHA512.bytes_of_word n x) = n.
Proof.
  revert x; induction n as [|n IH]; intros x; [reflexivity|].
  simpl; rewrite length_app, IH; simpl; lia.
Qed.

Lemma sha512_digest_length (msg : list byte) : List.length (sha512_digest msg) = 64.
Proof.
  unfold sha512_digest, SHA512.digest.
  destruct (fold_left SHA512.compress _ SHA512.initial)
    as [[[[[[[a b] c] d] e] f] g] h].
  rewrite length_map; cbn [flat_map].
  rewrite !length_app, !bytes_of_word_length; reflexivity.
Qed.

(** X11.  Whatever the password, the [password_hash] of a SIGN_IN request
    is a [bytes] value of exactly 64 bytes. *)
Theorem password_hash_has_64_bytes
    (user_id password lifetime : value) (s : state) (q : request) :
  In q (issued (events_of (Controller.sign_in user_id password lifetime s))) ->
  exists h,
    dict_get (request_fields q) "password_hash" = Some (VBytes h) /\
    List.length h = 64.
Proof.
  pose proof (controller_sign_in_run user_id password lifetime s) as H.
  cbv zeta in H.
  destruct (py_encode_ascii password) as [encoded|e].
  - intros Hq.
    assert (Hq' : q = market_sign_in_request user_id encoded lifetime).
    { destruct H as [H | (res & H)]; rewrite H in Hq; simpl in Hq;
        destruct Hq as [<- | []]; reflexivity. }
    subst q; exists (sha512_digest encoded); split;
      [reflexivity | apply sha512_digest_length].
  - rewrite H; intros [].
Qed.

End Sessions.

(** The witnesses of the session properties. *)



(** A second sign-in that the marketplace answers with an empty body. *)
Lemma failed_sign_in_keeps_token_witness :
  let s := demo_state [Return (VDict [("body", VNone)])] (Some (VStr "market-token")) in
  market (state_of (Controller.sign_in (VStr "requester1") (VStr "wrong") (VInt 1) s))
    = market s.
Proof.
  intros s.
  apply (failed_sign_in_keeps_token (C := demo_world)).
  intros v; vm_compute; discriminate.
Defined.

Lemma password_hash_has_64_bytes_witness :
  exists h,
    dict_get
      (request_fields
         (market_sign_in_request (VStr "requester1") (bytes_of_string "requester1")
            (VInt 604800000)))
      "password_hash" = Some (VBytes h) /\
    List.length h = 64.
Proof.
  apply (password_hash_has_64_bytes (C := demo_world)
           (VStr "requester1") (VStr "requester1") (VInt 604800000)
           (demo_state [Return demo_signed_in] None)).
  left; reflexivity.
Defined.

(** ** The facade's [sign_in] *)

Section FacadeSignIn.

Context {C : Collaborators}.

(** X12.  The keyword arguments for the marketplace are bound only after
    the sign-in to Tutti.works has returned: when [market_params] lacks a
    required key or has an unknown one, [sign_in] raises the [TypeError]
    with the Tutti.works sign-in already done and no request sent to the
    marketplace. *)
Theorem sign_in_binds_market_params_late
    (works_params market_params : list (string * value)) (s : state)
    (wargs : value * value * value * list (string * value))
    (v : value) (w : World) (e : exn) :
  Facade.bind_sign_in_works works_params = Ok wargs ->
  respond (works_sign_in_request works_params) (world s) = (Return v, w) ->
  Facade.bind_sign_in_market market_params = Err e ->
  Facade.sign_in works_params market_params s =
  (Raise e, set_world s w,
   [ Issued (works_sign_in_request works_params);
     Completed (works_sign_in_request works_params) (Ok v) ]).
Proof.
  intros Hw Hr Hm.
  unfold Facade.sign_in.
  assert (Hargs : wargs =
                  (Facade.kw_get works_params "user_name" VNone,
                   Facade.kw_get works_params "password_hash" VNone,
                   Facade.kw_get works_params "access_token" VNone,
                   Facade.kw_rest ["user_name"; "password_hash"; "access_token"]
                     works_params)).
  { unfold Facade.bind_sign_in_works in Hw.
    destruct (Facade.kw_refused _ _ _ _); [discriminate Hw | now injection Hw]. }
  rewrite Hw, Hargs, bind_lift_Ok; cbv beta iota.
  unfold Facade.sign_in_works, works_sign_in_request in *.
  run. reflexivity.
Qed.


End FacadeSignIn.

(** The sign-in of [example.py] with the password of the marketplace
    account left out. *)
Lemma sign_in_binds_market_params_late_witness :
  Facade.sign_in
    [("user_name", VStr "admin"); ("password", VStr "admin")]
    [("user_id", VStr "requester1")]
    (demo_state [Return VNone] None)
  = (Raise (Exc TypeError
              ("NejiFinderTuttiClient.sign_in_market() missing 1 required "
               ++ "positional argument: 'password'")),
     demo_state [] None,
     [ Issued (works_sign_in_request
                 [("user_name", VStr "admin"); ("password", VStr "admin")]);
       Completed (works_sign_in_request
                    [("user_name", VStr "admin"); ("password", VStr "admin")])
         (Ok VNone) ]).
Proof.
  apply (sign_in_binds_market_params_late (C := demo_world)
           [("user_name", VStr "admin"); ("password", VStr "admin")]
           [("user_id", VStr "requester1")]
           (demo_state [Return VNone] None)
           (VStr "admin", VNone, VNone, [("password", VStr "admin")])
           VNone []);
    reflexivity.
Defined.


(** ** Every run of [publish_tasks_to_market] *)

(** The next step of a run whose answer is not known: every way the step
    can end. *)
Ltac explore_step :=
  match goal with
  | |- context [bind (duct_call ?d ?ev ?data) ?k ?s] =>
      let e := fresh "e" in
      destruct (bind_duct_call_cases d ev data k s) as [[e ->] | ->]
  | |- context [bind (lift ?r) _ _] => destruct r eqn:?
  | |- context [if truthy ?v then _ else _] => destruct (truthy v) eqn:?
  | |- context [if ne_str ?v ?t then _ else _] => destruct (ne_str v t) eqn:?
  | |- context [bind (call ?q) _ ?s] =>
      let H := fresh "Hq" in
      destruct (respond q (world s)) as [[?|?|] ?] eqn:H;
      rewrite ?world_set_world in H
  | |- context [bind get_access_token ?k ?s] =>
      let H := fresh "Htoken" in
      destruct (access_token (market s)) eqn:H;
      [ rewrite (bind_get_token k s _ H) | rewrite (bind_get_token_unset k s H) ]
  end.

Ltac explore := repeat (run || explore_step).

Section EveryRun.

Context {C : Collaborators}.

(** X14.  In every run, the requests of [publish_tasks_to_market] are an
    initial segment of: the lookup of the APS, the lookup of the PPS, the
    creation of the nanotask, the creation of the nanotask group, the
    registration of the job.  No step is sent twice, out of order, or
    without the steps before it. *)
Theorem publish_requests_in_order (aps_id sync_id : string) (s : state) :
  is_prefix
    (map step_of (issued (events_of (Facade.publish_tasks_to_market aps_id sync_id s))))
    publish_order = true.
Proof.
  unfold Facade.publish_tasks_to_market.
  explore;
    try (rewrite try_except_swallow;
         unfold Facade.register_job_suite, Controller.register_job; explore);
    reflexivity.
Qed.

(** X15.  Whenever a REGISTER_JOB request is issued, its [job_parameter]
    names the caller's APS ID and, as only nanotask group, the ID that the
    creation of the nanotask group returned earlier in the same run. *)
Theorem registered_job_names_created_group
    (aps_id sync_id : string) (s : state) (data : value) :
  In (Issued (DuctCall Market "REGISTER_JOB" data))
     (events_of (Facade.publish_tasks_to_market aps_id sync_id s)) ->
  exists group ngid ppsid,
    subscript data "job_parameter" = Ok (Facade.job_parameter_of ngid aps_id ppsid) /\
    In (Completed group (Ok ngid))
       (events_of (Facade.publish_tasks_to_market aps_id sync_id s)) /\
    step_of group = CreateNanotaskGroup.
Proof.
  unfold Facade.publish_tasks_to_market.
  explore;
    try (rewrite try_except_swallow;
         unfold Facade.register_job_suite, Controller.register_job; explore);
    unfold Facade.aps_get_request, Facade.pps_get_request,
      Facade.create_nanotasks_request, Facade.create_nanotask_group_request;
    cbn [events_of emit snd fst app In];
    intros Hin;
    repeat (destruct Hin as [Hin | Hin]; [try discriminate Hin|]);
    try contradiction;
    injection Hin as <-;
    do 3 eexists; (split; [reflexivity|]);
    (split; [repeat (first [left; reflexivity | right]) | reflexivity]).
Qed.

End EveryRun.

Lemma registered_job_names_created_group_witness :
  exists group ngid ppsid,
    subscript
      (VDict [ ("access_token", VStr "market-token");
               ("job_class_id", VStr "jc1");
               ("job_parameter",
                Facade.job_parameter_of (VStr "ng-1") "aps-1" (VStr "pps-1"));
               ("description", VStr "created at 1700000000");
               ("num_job_assignments_max", VNone);
               ("priority_score", VInt 5) ])
      "job_parameter" = Ok (Facade.job_parameter_of ngid "aps-1" ppsid) /\
    In (Completed group (Ok ngid))
       (events_of
          (Facade.publish_tasks_to_market "aps-1" "sync-1"
             (demo_state
                [Return demo_aps; Return (demo_pps "market" "priorityScore");
                 Return demo_nanotasks; Return (VStr "ng-1"); Return (demo_job false)]
                (Some (VStr "market-token"))))) /\
    step_of group = CreateNanotaskGroup.
Proof.
  apply (registered_job_names_created_group (C := demo_world) "aps-1" "sync-1").
  vm_compute; tauto.
Defined.

(** ** Partial failures of [publish_tasks_to_market] *)

Section PartialFailures.

Context {C : Collaborators}.

Variables (aps_id sync_id : string) (s : state).
Variables (token data aps ppsid token' data' : value).
Variables (w1 w2 : World).

Hypothesis Htoken : subscript (account_info (world s)) "access_token" = Ok token.
Hypothesis Haps : respond (Facade.aps_get_request aps_id token) (world s) = (Return data, w1).
Hypothesis Hdata : truthy data = true.
Hypothesis Hcontent : subscript data "content" = Ok aps.
Hypothesis Hrecord : truthy aps = true.
Hypothesis Hppsid : subscript aps "platform_parameter_set_id" = Ok ppsid.
Hypothesis Htoken' : subscript (account_info w1) "access_token" = Ok token'.
Hypothesis Hpps : respond (Facade.pps_get_request ppsid token') w1 = (Return data', w2).
Hypothesis Hdata' : truthy data' = true.

(** X16.  An answer to PLATFORM_PARAMETER_SET_GET that is a record with
    [content] [None] passes the check of the answer; the method then fails
    at the platform check with the [TypeError] of subscripting [None],
    after the two lookups and before any nanotask is created. *)
Theorem publish_pps_without_content :
  subscript data' "content" = Ok VNone ->
  Facade.publish_tasks_to_market aps_id sync_id s =
  (Raise (Exc TypeError "'NoneType' object is not subscriptable"),
   set_world (set_world s w1) w2,
   [ Issued (Facade.aps_get_request aps_id token);
     Completed (Facade.aps_get_request aps_id token) (Ok data);
     Issued (Facade.pps_get_request ppsid token');
     Completed (Facade.pps_get_request ppsid token') (Ok data') ]).
Proof.
  intros Hnone.
  unfold Facade.publish_tasks_to_market.
  run. reflexivity.
Qed.

Variables (pps platform project created nids ngid : value) (w3 w4 : World).

Hypothesis Hcontent' : subscript data' "content" = Ok pps.
Hypothesis Hplatform : subscript pps "platform" = Ok platform.
Hypothesis Hmarket : ne_str platform "market" = false.
Hypothesis Hproject : subscript aps "project_name" = Ok project.
Hypothesis Hcreated :
  respond (Facade.create_nanotasks_request project (unix_time w2) sync_id) w2
  = (Return created, w3).
Hypothesis Hnids : subscript created "nanotask_ids" = Ok nids.
Hypothesis Hgroup :
  respond (Facade.create_nanotask_group_request (unix_time w2) nids project) w3
  = (Return ngid, w4).

(** X17.  On a client whose marketplace controller holds no token, the
    nanotask and the nanotask group are created all the same; the method
    then returns [None] with the exception logged, and no REGISTER_JOB
    request is issued: the four requests to Tutti.works are the whole
    run. *)
Theorem publish_without_market_session :
  access_token (market s) = None ->
  let r := Facade.publish_tasks_to_market aps_id sync_id s in
  result_of r = Return VNone /\
  issued (events_of r) =
    [ Facade.aps_get_request aps_id token;
      Facade.pps_get_request ppsid token';
      Facade.create_nanotasks_request project (unix_time w2) sync_id;
      Facade.create_nanotask_group_request (unix_time w2) nids project ] /\
  exists e, last (events_of r) (Printed []) = Traceback e.
Proof.
  intros Hnone; cbv zeta.
  unfold Facade.publish_tasks_to_market.
  run.
  rewrite try_except_swallow.
  unfold Facade.register_job_suite, Controller.register_job.
  assert (Hnone' : forall w, access_token (market (set_world
            (set_world (set_world (set_world s w1) w2) w3) w)) = None)
    by (intros; exact Hnone).
  explore; try congruence;
    (split; [reflexivity | split; [reflexivity | eexists; reflexivity]]).
Qed.

Variables (bag job_class_id x_max n_max x_prio n_prio mtoken res success : value).
Variable (w5 : World).

Hypothesis Hbag : subscript pps "parameters" = Ok bag.
Hypothesis Hclass : subscript bag "job_class_id" = Ok job_class_id.
Hypothesis Hmax : subscript bag "num_job_assignments_max" = Ok x_max.
Hypothesis Hmax' : Facade.int_or_none x_max = Ok n_max.
Hypothesis Hprio : subscript bag "priorityScore" = Ok x_prio.
Hypothesis Hprio' : Facade.int_or_none x_prio = Ok n_prio.
Hypothesis Hmtoken : access_token (market s) = Some mtoken.
Hypothesis Hjob :
  respond
    (register_job_request mtoken job_class_id
       (Facade.job_parameter_of ngid aps_id ppsid)
       (VStr ("created at " ++ string_of_Z (unix_time w2))) n_max n_prio) w4
  = (Return res, w5).
Hypothesis Hsuccess : subscript res "success" = Ok success.
Hypothesis Hrefused : truthy success = false.

(** X18.  When the answer to REGISTER_JOB has a false [success], the
    exception that is raised, logged and swallowed is the [NameError] of
    the name [Error], which the module does not define; the method returns
    [None] after the five requests. *)
Theorem publish_refused_job_logs_name_error :
  let r := Facade.publish_tasks_to_market aps_id sync_id s in
  result_of r = Return VNone /\
  last (events_of r) (Printed []) =
    Traceback (Exc NameError "name 'Error' is not defined") /\
  map step_of (issued (events_of r)) = publish_order.
Proof.
  cbv zeta.
  unfold Facade.publish_tasks_to_market.
  run.
  rewrite try_except_swallow.
  unfold Facade.register_job_suite, Controller.register_job, register_job_request in *.
  run.
  repeat split.
Qed.

End PartialFailures.


(** ** The encoding of the password *)

Lemma find_non_ascii_none (cs : list ascii) (pos : nat) :
  find_non_ascii cs pos = None <-> forallb is_ascii cs = true.
Proof.
  revert pos; induction cs as [|c cs IH]; intros pos; simpl; [tauto|].
  destruct (is_ascii c); simpl; [apply IH | split; discriminate].
Qed.

(** X21.  The bytes that [sign_in] hashes are the password itself: the
    encoding succeeds exactly when every character of the password is below
    128, and then it has one byte per character, the bytes spelling the
    password again. *)
Theorem password_encoding_round_trip (password : string) :
  match py_encode_ascii (VStr password) with
  | Ok encoded =>
      forallb is_ascii (list_ascii_of_string password) = true /\
      string_of_bytes encoded = password /\
      List.length encoded = String.length password
  | Err e =>
      forallb is_ascii (list_ascii_of_string password) = false /\
      exc_type e = UnicodeEncodeError
  end.
Proof.
  unfold py_encode_ascii.
  destruct (find_non_ascii (list_ascii_of_string password) 0)
    as [[[pos c] run]|] eqn:Hfind.
  - split; [|reflexivity].
    destruct (forallb is_ascii (list_ascii_of_string password)) eqn:Hall;
      [|reflexivity].
    apply (find_non_ascii_none _ 0) in Hall; congruence.
  - split; [now apply (find_non_ascii_none _ 0) | split].
    + unfold string_of_bytes; rewrite map_map.
      rewrite (map_ext _ (fun a => a)) by apply ascii_of_byte_of_ascii.
      rewrite map_id; apply string_of_list_ascii_of_string.
    + rewrite length_map.
      clear Hfind; induction password as [|c p IH]; simpl; [reflexivity | now rewrite IH].
Qed.

(** ** What a returned value of [publish_tasks_to_market] tells *)

Section Returned.

Context {C : Collaborators}.

(** X22.  A run that returns returns [None] with an exception logged last,
    or a pair: then the first component is the ID that the creation of the
    nanotask group returned in this run and the second is the [body] of an
    answer to REGISTER_JOB whose [success] is true. *)
Theorem publish_return_values (aps_id sync_id : string) (s : state) (v : value) :
  result_of (Facade.publish_tasks_to_market aps_id sync_id s) = Return v ->
  let l := events_of (Facade.publish_tasks_to_market aps_id sync_id s) in
  (v = VNone /\ exists e, last l (Printed []) = Traceback e) \/
  (exists group job ngid res success jid,
     v = VTuple [ngid; jid] /\
     subscript res "success" = Ok success /\ truthy success = true /\
     subscript res "body" = Ok jid /\
     In (Completed group (Ok ngid)) l /\ step_of group = CreateNanotaskGroup /\
     In (Completed job (Ok res)) l /\ step_of job = RegisterJob).
Proof.
  cbv zeta; unfold Facade.publish_tasks_to_market.
  explore;
    try (rewrite try_except_swallow;
         unfold Facade.register_job_suite, Controller.register_job; explore);
    unfold Facade.aps_get_request, Facade.pps_get_request,
      Facade.create_nanotasks_request, Facade.create_nanotask_group_request;
    cbn [result_of events_of emit snd fst app];
    intros Hv; try discriminate Hv; injection Hv as <-;
    first
      [ left; split; [reflexivity | eexists; reflexivity]
      | right; do 6 eexists;
        split; [reflexivity|];
        split; [eassumption|]; split; [assumption|]; split; [eassumption|];
        split; [repeat (first [left; reflexivity | right])|];
        split; [reflexivity|];
        split; [repeat (first [left; reflexivity | right]) | reflexivity] ].
Qed.

End Returned.

(** ** The further properties on the scenario *)

Lemma publish_pps_without_content_witness :
  Facade.publish_tasks_to_market "aps-1" "sync-1"
    (demo_state [Return demo_aps; Return (VDict [("content", VNone)])] None)
  = (Raise (Exc TypeError "'NoneType' object is not subscriptable"),
     demo_state [] None,
     [ Issued (Facade.aps_get_request "aps-1" (VStr "works-token"));
       Completed (Facade.aps_get_request "aps-1" (VStr "works-token")) (Ok demo_aps);
       Issued (Facade.pps_get_request (VStr "pps-1") (VStr "works-token"));
       Completed (Facade.pps_get_request (VStr "pps-1") (VStr "works-token"))
         (Ok (VDict [("content", VNone)])) ]).
Proof.
  apply (publish_pps_without_content (C := demo_world) "aps-1" "sync-1"
           (demo_state [Return demo_aps; Return (VDict [("content", VNone)])] None)
           (VStr "works-token") demo_aps demo_aps_record (VStr "pps-1")
           (VStr "works-token") (VDict [("content", VNone)])
           [Return (VDict [("content", VNone)])] []);
    reflexivity.
Defined.

(** The scenario on a client that never signed in to the marketplace. *)
Lemma publish_without_market_session_witness :
  let r := Facade.publish_tasks_to_market "aps-1" "sync-1"
             (demo_state
                [Return demo_aps; Return (demo_pps "market" "priorityScore");
                 Return demo_nanotasks; Return (VStr "ng-1")]
                None) in
  result_of r = Return VNone /\
  issued (events_of r) =
    [ Facade.aps_get_request "aps-1" (VStr "works-token");
      Facade.pps_get_request (VStr "pps-1") (VStr "works-token");
      Facade.create_nanotasks_request (VStr "neji") 1700000000 "sync-1";
      Facade.create_nanotask_group_request 1700000000 (VList [VStr "nt-1"])
        (VStr "neji") ] /\
  exists e, last (events_of r) (Printed []) = Traceback e.
Proof.
  apply (publish_without_market_session (C := demo_world) "aps-1" "sync-1"
           (demo_state
              [Return demo_aps; Return (demo_pps "market" "priorityScore");
               Return demo_nanotasks; Return (VStr "ng-1")]
              None)
           (VStr "works-token") demo_aps demo_aps_record (VStr "pps-1")
           (VStr "works-token") (demo_pps "market" "priorityScore")
           [Return (demo_pps "market" "priorityScore");
            Return demo_nanotasks; Return (VStr "ng-1")]
           [Return demo_nanotasks; Return (VStr "ng-1")]
           eq_refl eq_refl eq_refl eq_refl eq_refl eq_refl eq_refl eq_refl eq_refl
           (demo_pps_record "market" "priorityScore") (VStr "market") (VStr "neji")
           demo_nanotasks (VList [VStr "nt-1"]) (VStr "ng-1")
           [Return (VStr "ng-1")] []);
    reflexivity.
Defined.

(** The scenario with the registration answered by [success: false]. *)
Lemma publish_refused_job_logs_name_error_witness :
  let r := Facade.publish_tasks_to_market "aps-1" "sync-1"
             (demo_state
                [Return demo_aps; Return (demo_pps "market" "priorityScore");
                 Return demo_nanotasks; Return (VStr "ng-1"); Return (demo_job false)]
                (Some (VStr "market-token"))) in
  result_of r = Return VNone /\
  last (events_of r) (Printed []) =
    Traceback (Exc NameError "name 'Error' is not defined") /\
  map step_of (issued (events_of r)) = publish_order.
Proof.
  apply (publish_refused_job_logs_name_error (C := demo_world) "aps-1" "sync-1"
           (demo_state
              [Return demo_aps; Return (demo_pps "market" "priorityScore");
               Return demo_nanotasks; Return (VStr "ng-1"); Return (demo_job false)]
              (Some (VStr "market-token")))
           (VStr "works-token") demo_aps demo_aps_record (VStr "pps-1")
           (VStr "works-token") (demo_pps "market" "priorityScore")
           [Return (demo_pps "market" "priorityScore");
            Return demo_nanotasks; Return (VStr "ng-1"); Return (demo_job false)]
           [Return demo_nanotasks; Return (VStr "ng-1"); Return (demo_job false)]
           eq_refl eq_refl eq_refl eq_refl eq_refl eq_refl eq_refl eq_refl eq_refl
           (demo_pps_record "market" "priorityScore") (VStr "market") (VStr "neji")
           demo_nanotasks (VList [VStr "nt-1"]) (VStr "ng-1")
           [Return (VStr "ng-1"); Return (demo_job false)] [Return (demo_job false)]
           eq_refl eq_refl eq_refl eq_refl eq_refl eq_refl eq_refl
           (demo_bag "priorityScore") (VStr "jc1") (VStr EmptyString) VNone
           (VStr "5") (VInt 5) (VStr "market-token") (demo_job false) (VBool false)
           []);
    reflexivity.
Defined.

(** The scenario with every step answered: the pair that is returned. *)
Lemma publish_return_values_witness :
  let l := events_of
             (Facade.publish_tasks_to_market "aps-1" "sync-1"
                (demo_state
                   [Return demo_aps; Return (demo_pps "market" "priorityScore");
                    Return demo_nanotasks; Return (VStr "ng-1"); Return (demo_job true)]
                   (Some (VStr "market-token")))) in
  (VTuple [VStr "ng-1"; VStr "job-9"] = VNone /\
   exists e, last l (Printed []) = Traceback e) \/
  (exists group job ngid res success jid,
     VTuple [VStr "ng-1"; VStr "job-9"] = VTuple [ngid; jid] /\
     subscript res "success" = Ok success /\ truthy success = true /\
     subscript res "body" = Ok jid /\
     In (Completed group (Ok ngid)) l /\ step_of group = CreateNanotaskGroup /\
     In (Completed job (Ok res)) l /\ step_of job = RegisterJob).
Proof.
  apply (publish_return_values (C := demo_world) "aps-1" "sync-1"); reflexivity.
Defined.
